(** * The update lifecycle engine and the prepared-statement bind parameters

    A shallow embedding of three source files of the repository:

    - [Sqlite]: [normalizeParams] and the [Statement] class
      (src/unnamed/part_000, TypeScript);
    - [NoDatabase]: the launcher [AppLauncherNoDatabase]
      (src/unnamed/part_001, Swift);
    - [Updates]: the engine facade [UpdatesController]
      (src/packages/expo-sqlite/build/next/hooks.js from line 82 on, Kotlin).

    Conventions of the embedding.  Mutable fields of a class are the fields
    of a record that every method takes and returns.  A method that can
    throw returns a [Completion] next to the state it leaves behind, because
    a Kotlin exception does not undo the assignments made before it.  What
    a method does to its collaborators (the state machine, the database
    lease, the monitor, the caller's callback) is appended to the [trace]
    field of the state, in program order. *)

From stdpp Require Import gmap strings list.
From Stdlib Require Import ZArith Lia.

Set Warnings "-register-all".
Local Open Scope string_scope.
Local Open Scope list_scope.

(* ===================================================================== *)
(** ** Part I.  [normalizeParams] and [Statement] (src/unnamed/part_000)  *)
(* ===================================================================== *)

Module Sqlite.

(** JavaScript values as far as [normalizeParams] can tell them apart.
    Numbers are never inspected, so an integer carrier stands for them. *)
Inductive JSValue : Type :=
| JSUndefined
| JSNull
| JSBoolean (b : bool)
| JSNumber (n : Z)
| JSBigInt (n : Z)
| JSString (s : string)
| JSSymbol (description : string)
| JSFunction (name : string)
| JSArray (elements : list JSValue)
| JSUint8Array (bytes : list Z)
| JSObject (properties : list (string * JSValue)).

(** The [typeof] operator.  [typeof null] is ["object"], as are arrays and
    typed arrays. *)
Definition typeof (v : JSValue) : string :=
  match v with
  | JSUndefined => "undefined"
  | JSNull => "object"
  | JSBoolean _ => "boolean"
  | JSNumber _ => "number"
  | JSBigInt _ => "bigint"
  | JSString _ => "string"
  | JSSymbol _ => "symbol"
  | JSFunction _ => "function"
  | JSArray _ => "object"
  | JSUint8Array _ => "object"
  | JSObject _ => "object"
  end.

(** [Array.isArray]. *)
Definition isArray (v : JSValue) : bool :=
  match v with
  | JSArray _ => true
  | _ => false
  end.

(** [params[0]]: reading past the end of an array gives [undefined]. *)
Definition index0 (params : list JSValue) : JSValue :=
  match params with
  | [] => JSUndefined
  | v :: _ => v
  end.

(** The object literal [{ params, shouldPassAsObject }] that
    [normalizeParams] returns. *)
Record NormalizedParams : Type := mkNormalizedParams {
  params : JSValue;
  shouldPassAsObject : bool
}.

(** [normalizeParams(...params)], lines 281-290.  The rest parameter
    [params] is the list of arguments. *)
Definition normalizeParams (args : list JSValue) : NormalizedParams :=
  let bindParams :=
    if decide (1 < length args) then JSArray args else index0 args in
  let bindParams :=
    if decide (typeof bindParams ≠ "object") then JSArray [bindParams]
    else bindParams in
  let shouldPassAsObject := negb (isArray bindParams) in
  {| params := bindParams; shouldPassAsObject := shouldPassAsObject |}.

(** The methods of the native statement that [Statement] calls with bind
    parameters. *)
Inductive NativeMethod : Type :=
| arrayRunAsync | objectRunAsync
| arrayGetAsync | objectGetAsync
| arrayGetAllAsync | objectGetAllAsync
| arrayRunSync | objectRunSync
| arrayGetSync | objectGetSync
| arrayGetAllSync | objectGetAllSync.

(** Whether a native method binds the parameters of an object by name. *)
Definition isObjectBinding (m : NativeMethod) : bool :=
  match m with
  | objectRunAsync | objectGetAsync | objectGetAllAsync
  | objectRunSync | objectGetSync | objectGetAllSync => true
  | _ => false
  end.

(** The choice every method of [Statement] makes between its two native
    calls: [if (shouldPassAsObject) object... else array...]. *)
Definition dispatch (objectMethod arrayMethod : NativeMethod)
    (args : list JSValue) : NativeMethod :=
  if shouldPassAsObject (normalizeParams args) then objectMethod
  else arrayMethod.

(** The native statement is outside the repository's sources: a call of
    one of its methods with the bind parameters answers with a value and
    moves the native cursor. *)
Section Statement.
Variable NativeState : Type.
Variable native : NativeMethod -> JSValue -> NativeState -> JSValue * NativeState.

(** [x ?? null]. *)
Definition orNull (v : JSValue) : JSValue :=
  match v with
  | JSUndefined => JSNull
  | _ => v
  end.

(** [x != null] (loose inequality: false for [null] and [undefined]). *)
Definition notNullish (v : JSValue) : bool :=
  match v with
  | JSUndefined | JSNull => false
  | _ => true
  end.

Definition runAsync (args : list JSValue) (s : NativeState) :=
  native (dispatch objectRunAsync arrayRunAsync args)
         (params (normalizeParams args)) s.

Definition getAsync (args : list JSValue) (s : NativeState) :=
  let r := native (dispatch objectGetAsync arrayGetAsync args)
                  (params (normalizeParams args)) s in
  (orNull r.1, r.2).

Definition allAsync (args : list JSValue) (s : NativeState) :=
  native (dispatch objectGetAllAsync arrayGetAllAsync args)
         (params (normalizeParams args)) s.

Definition runSync (args : list JSValue) (s : NativeState) :=
  native (dispatch objectRunSync arrayRunSync args)
         (params (normalizeParams args)) s.

Definition getSync (args : list JSValue) (s : NativeState) :=
  let r := native (dispatch objectGetSync arrayGetSync args)
                  (params (normalizeParams args)) s in
  (orNull r.1, r.2).

Definition allSync (args : list JSValue) (s : NativeState) :=
  native (dispatch objectGetAllSync arrayGetAllSync args)
         (params (normalizeParams args)) s.

(** The [do ... while (result != null)] loop of the two generators: [func]
    and [bindParams] are fixed before the loop; the rows yielded are
    collected in order.  [fuel] bounds the number of native calls; the
    loop is over when the second component is [true]. *)
Fixpoint eachLoop (func : NativeMethod) (bindParams : JSValue)
    (fuel : nat) (s : NativeState) : list JSValue * bool * NativeState :=
  match fuel with
  | O => ([], false, s)
  | S fuel' =>
      let r := native func bindParams s in
      if notNullish r.1 then
        let rest := eachLoop func bindParams fuel' r.2 in
        (r.1 :: rest.1.1, rest.1.2, rest.2)
      else ([], true, r.2)
  end.

Definition eachAsync (args : list JSValue) (fuel : nat) (s : NativeState) :=
  eachLoop (dispatch objectGetAsync arrayGetAsync args)
           (params (normalizeParams args)) fuel s.

Definition eachSync (args : list JSValue) (fuel : nat) (s : NativeState) :=
  eachLoop (dispatch objectGetSync arrayGetSync args)
           (params (normalizeParams args)) fuel s.

(** The native statement after [n] calls of [func] with [bindParams], and
    the value that the call after those [n] returns. *)
Fixpoint afterCalls (func : NativeMethod) (bindParams : JSValue) (n : nat)
    (s : NativeState) : NativeState :=
  match n with
  | O => s
  | S n' => afterCalls func bindParams n' (native func bindParams s).2
  end.

Definition nextResult (func : NativeMethod) (bindParams : JSValue) (n : nat)
    (s : NativeState) : JSValue :=
  (native func bindParams (afterCalls func bindParams n s)).1.

End Statement.

(** The argument lists that consist of one value whose [typeof] is
    ["object"] and that is not an array: a plain object, a typed array, or
    [null]. *)
Definition singleNonArrayObject (args : list JSValue) : bool :=
  match args with
  | [v] => bool_decide (typeof v = "object") && negb (isArray v)
  | _ => false
  end.

End Sqlite.

(* ===================================================================== *)
(** ** Part II.  [AppLauncherNoDatabase] (src/unnamed/part_001)           *)
(* ===================================================================== *)

Module NoDatabase.

Section AppLauncherNoDatabase.
(** The types and the two lookups the class uses are declared outside the
    file: [EmbeddedAppLoader.embeddedManifest(withConfig:database:)] and
    [Bundle.main.url(forResource:withExtension:)] for the embedded bundle. *)
Variables Update UpdatesConfig URL AssetFiles : Type.
Variable embeddedManifest : UpdatesConfig -> option Update.
Variable embeddedBundleUrl : option URL.

(** The three stored properties of the class. *)
Record AppLauncherNoDatabase : Type := mkAppLauncherNoDatabase {
  launchedUpdate : option Update;
  launchAssetUrl : option URL;
  assetFilesMap : option AssetFiles
}.

(** [public override init() {}]: every optional property starts as [nil]. *)
Definition init : AppLauncherNoDatabase :=
  {| launchedUpdate := None; launchAssetUrl := None; assetFilesMap := None |}.

(** [launchUpdate(withConfig:)], lines 24-33.  [None] is the trap of a
    failed [precondition]. *)
Definition launchUpdate (config : UpdatesConfig) (l : AppLauncherNoDatabase)
    : option AppLauncherNoDatabase :=
  let l1 := {| launchedUpdate := embeddedManifest config;
               launchAssetUrl := launchAssetUrl l;
               assetFilesMap := assetFilesMap l |} in
  match launchedUpdate l1 with
  | Some _ =>
      match assetFilesMap l1 with
      | None =>
          Some {| launchedUpdate := launchedUpdate l1;
                  launchAssetUrl := embeddedBundleUrl;
                  assetFilesMap := assetFilesMap l1 |}
      | Some _ => None
      end
  | None => Some l1
  end.

(** [isUsingEmbeddedAssets()], lines 35-37. *)
Definition isUsingEmbeddedAssets (l : AppLauncherNoDatabase) : bool :=
  match assetFilesMap l with
  | None => true
  | Some _ => false
  end.

(** A launcher after [init()] and any number of [launchUpdate] calls;
    [None] once a call has trapped. *)
Fixpoint launchAll (configs : list UpdatesConfig) (l : AppLauncherNoDatabase)
    : option AppLauncherNoDatabase :=
  match configs with
  | [] => Some l
  | config :: rest =>
      match launchUpdate config l with
      | Some l' => launchAll rest l'
      | None => None
      end
  end.

End AppLauncherNoDatabase.

Arguments launchedUpdate {Update URL AssetFiles} _.
Arguments launchAssetUrl {Update URL AssetFiles} _.
Arguments assetFilesMap {Update URL AssetFiles} _.
Arguments init {Update URL AssetFiles}.
Arguments launchUpdate {Update UpdatesConfig URL AssetFiles} _ _ _ _.
Arguments isUsingEmbeddedAssets {Update URL AssetFiles} _.
Arguments launchAll {Update UpdatesConfig URL AssetFiles} _ _ _ _.

End NoDatabase.

(* ===================================================================== *)
(** ** Part III.  [UpdatesController] (Kotlin, hooks.js lines 154-1013)   *)
(* ===================================================================== *)

Module Updates.

(** *** Data *)

(** A Kotlin [Exception], by its message. *)
Definition Exception : Type := string.

(** What a method can throw: an [Exception], which [catch (e: Exception)]
    handles, or one of two errors that it does not. *)
Inductive Throwable : Type :=
| ExceptionThrown (e : Exception)
| AssertionError (message : string)
| UninitializedPropertyAccessException (property : string).

Inductive Completion (A : Type) : Type :=
| Returned (a : A)
| Threw (t : Throwable).
Arguments Returned {A} a.
Arguments Threw {A} t.

(** [java.util.Date], as milliseconds. *)
Definition Date : Type := Z.

(** Modelled from the spec: the class [UpdateEntity] is not among the
    sources; section 3 gives the fields used here, the two launch counters
    being non-negative. *)
Record UpdateEntity : Type := mkUpdateEntity {
  id : string;
  commitTime : Date;
  manifest : string;
  failedLaunchCount : nat;
  successfulLaunchCount : nat
}.

(** [UpdateManifest]: the parsed manifest of a response; [updateEntity] is
    nullable in the source ([updateManifest.updateEntity?.let]). *)
Record UpdateManifest : Type := mkUpdateManifest {
  updateEntity : option UpdateEntity;
  rawJson : string
}.

Inductive UpdateDirective : Type :=
| NoUpdateAvailableUpdateDirective
| RollBackToEmbeddedUpdateDirective (directiveCommitTime : Date).

(** Manifest filters of the response headers: opaque to the controller. *)
Definition ManifestFilters : Type := string.

Record ResponseHeaderData : Type := mkResponseHeaderData {
  manifestFilters : option ManifestFilters
}.

(** [UpdateResponse]: each part may be absent.  A part is identified with
    its payload ([directiveUpdateResponsePart?.updateDirective],
    [manifestUpdateResponsePart?.updateManifest]). *)
Record UpdateResponse : Type := mkUpdateResponse {
  responseHeaderData : option ResponseHeaderData;
  manifestUpdateResponsePart : option UpdateManifest;
  directiveUpdateResponsePart : option UpdateDirective
}.

(** [updateResponse.responseHeaderData?.manifestFilters]. *)
Definition responseFilters (r : UpdateResponse) : option ManifestFilters :=
  match responseHeaderData r with
  | Some h => manifestFilters h
  | None => None
  end.

(** The two decisions of [SelectionPolicy] that the controller asks for.
    The class is outside the sources, so a policy is any pair of functions
    of the arguments the controller passes. *)
Record SelectionPolicy : Type := mkSelectionPolicy {
  shouldLoadNewUpdate :
    option UpdateEntity -> option UpdateEntity -> option ManifestFilters -> bool;
  shouldLoadRollBackToEmbeddedDirective :
    UpdateDirective -> UpdateEntity -> option UpdateEntity ->
    option ManifestFilters -> bool
}.

Record UpdatesConfiguration : Type := mkUpdatesConfiguration {
  isEnabled : bool;
  updateUrl : option string;
  scopeKey : option string;
  hasEmbeddedUpdate : bool
}.

(** The [Launcher] interface, by the getters the controller reads. *)
Module Launcher.
Record t : Type := mk {
  launchedUpdate : option UpdateEntity;
  launchAssetFile : option string;
  bundleAssetName : option string;
  localAssetFiles : option (list (string * string));
  isUsingEmbeddedAssets : bool
}.
End Launcher.

(** [EmbeddedLoader.BARE_BUNDLE_FILENAME], declared outside the sources. *)
Definition BARE_BUNDLE_FILENAME : string := "app.bundle".

(** Modelled from the spec: the Kotlin class [NoDatabaseLauncher] is not
    among the sources.  It is the Android counterpart of
    [AppLauncherNoDatabase] as constructed: no launched update, no asset
    files map, hence embedded assets; per section 4.6 [launchAssetFile] is
    null for it and [bundleAssetName] names the embedded bundle.  The
    constructor's [fatalException] does not reach any getter. *)
Definition NoDatabaseLauncher (fatalException : option Exception) : Launcher.t :=
  let l := @NoDatabase.init UpdateEntity string (list (string * string)) in
  {| Launcher.launchedUpdate := NoDatabase.launchedUpdate l;
     Launcher.launchAssetFile := NoDatabase.launchAssetUrl l;
     Launcher.bundleAssetName := Some BARE_BUNDLE_FILENAME;
     Launcher.localAssetFiles := NoDatabase.assetFilesMap l;
     Launcher.isUsingEmbeddedAssets := NoDatabase.isUsingEmbeddedAssets l |}.

(** Modelled from the spec: [UpdatesDatabase] and its DAOs are not among
    the sources.  The catalog is the table of [UpdateEntity] rows keyed by
    [id], next to the key-value metadata table (sections 2 and 4.6). *)
Record UpdatesDatabase : Type := mkUpdatesDatabase {
  updates : gmap string UpdateEntity;
  jsonData : gmap string string
}.

(** [updateDao().loadUpdateWithId(id)]. *)
Definition loadUpdateWithId (db : UpdatesDatabase) (i : string)
    : option UpdateEntity :=
  updates db !! i.

Definition bumpFailed (u : UpdateEntity) : UpdateEntity :=
  {| id := id u; commitTime := commitTime u; manifest := manifest u;
     failedLaunchCount := S (failedLaunchCount u);
     successfulLaunchCount := successfulLaunchCount u |}.

Definition bumpSuccessful (u : UpdateEntity) : UpdateEntity :=
  {| id := id u; commitTime := commitTime u; manifest := manifest u;
     failedLaunchCount := failedLaunchCount u;
     successfulLaunchCount := S (successfulLaunchCount u) |}.

(** Modelled from the spec: [updateDao().incrementFailedLaunchCount(update)]
    adds one to the failed-launch counter of the row with the update's id
    (section 8, S5); a catalog without that row is left as it is. *)
Definition incrementFailedLaunchCount (u : UpdateEntity) (db : UpdatesDatabase)
    : UpdatesDatabase :=
  {| updates := alter bumpFailed (id u) (updates db); jsonData := jsonData db |}.

(** Modelled from the spec: [updateDao().incrementSuccessfulLaunchCount(update)],
    likewise for the successful-launch counter. *)
Definition incrementSuccessfulLaunchCount (u : UpdateEntity) (db : UpdatesDatabase)
    : UpdatesDatabase :=
  {| updates := alter bumpSuccessful (id u) (updates db); jsonData := jsonData db |}.

(** [LoaderTask.RemoteCheckResultNotAvailableReason]. *)
Inductive RemoteCheckResultNotAvailableReason : Type :=
| NO_UPDATE_AVAILABLE_ON_SERVER
| UPDATE_REJECTED_BY_SELECTION_POLICY
| UPDATE_PREVIOUSLY_FAILED
| ROLLBACK_REJECTED_BY_SELECTION_POLICY
| ROLLBACK_NO_EMBEDDED.

(** [UpdatesStateEvent], section 4.4 of the spec. *)
Inductive UpdatesStateEvent : Type :=
| Check
| CheckCompleteUnavailable
| CheckCompleteWithUpdate (manifestJson : string)
| CheckCompleteWithRollback (rollbackCommitTime : Date)
| CheckError (message : string)
| Download
| DownloadComplete
| DownloadCompleteWithUpdate (manifestJson : string)
| DownloadCompleteWithRollback
| DownloadError (message : string)
| Restart.

(** [CheckForUpdateResult], lines 665-677. *)
Inductive CheckForUpdateResult : Type :=
| NoUpdateAvailable (reason : RemoteCheckResultNotAvailableReason)
| UpdateAvailable (updateManifest : UpdateManifest)
| RollBackToEmbedded (rollbackCommitTime : Date)
| ErrorResult (error : Exception) (message : string).

(** [android.os.Bundle] as filled by [putString]. *)
Definition Bundle : Type := list (string * string).

(** [ErrorRecoveryDelegate.RemoteLoadStatus]. *)
Inductive RemoteLoadStatus : Type :=
| IDLE
| NEW_UPDATE_LOADING
| NEW_UPDATE_LOADED.

(** The closures handed to [databaseHandler.post]. *)
Inductive PostedTask : Type :=
| PostedMarkFailedLaunch
| PostedMarkSuccessfulLaunch.

Record LoaderTask : Type := mkLoaderTask {
  isRunning : bool
}.

(** What the controller does to its collaborators, in program order. *)
Inductive Effect : Type :=
| EvProcessEvent (event : UpdatesStateEvent)
| EvCheckForUpdateCallback (result : CheckForUpdateResult)
| EvGetDatabase
| EvReleaseDatabase
| EvNotify
| EvWait
| EvPurgeUpdatesLogs
| EvErrorRecoveryInitialize
| EvLoaderTaskStart
| EvDownloadRemoteUpdate
| EvGetExtraParamsOnSuccess (paramsBundle : Bundle)
| EvGetExtraParamsOnFailure (e : Exception)
| EvSetExtraParamOnSuccess
| EvSetExtraParamOnFailure (e : Exception).

(** The Android [Context], read through three helpers that are outside the
    sources: [UpdatesUtils.getOrCreateUpdatesDirectory(context)] (which can
    throw), [EmbeddedManifest.get(context, configuration)] and
    [BuildData.ensureBuildDataIsConsistent(configuration, database)]. *)
Record Context : Type := mkContext {
  getOrCreateUpdatesDirectory : Exception + string;
  embeddedManifest : UpdatesConfiguration -> option UpdateManifest;
  ensureBuildDataIsConsistent :
    UpdatesConfiguration -> UpdatesDatabase -> UpdatesDatabase
}.

(** The mutable state of the singleton: the fields of [UpdatesController]
    (lines 158-212), the database behind [databaseHolder], the queue of
    [databaseHandler] ([None] while the [lateinit] property is not
    initialized), and the trace. *)
Record Controller : Type := mkController {
  updatesConfiguration : UpdatesConfiguration;
  updatesDirectory : option string;
  updatesDirectoryException : option Exception;
  launcher : option Launcher.t;
  database : UpdatesDatabase;
  databaseHandler : option (list PostedTask);
  isStarted : bool;
  loaderTask : option LoaderTask;
  remoteLoadStatus : RemoteLoadStatus;
  mSelectionPolicy : option SelectionPolicy;
  defaultSelectionPolicy : SelectionPolicy;
  isLoaderTaskFinished : bool;
  isEmergencyLaunch : bool;
  trace : list Effect
}.

(** Field assignments. *)
Definition set_launcher (v : option Launcher.t) (c : Controller) : Controller :=
  mkController (updatesConfiguration c) (updatesDirectory c)
    (updatesDirectoryException c) v (database c) (databaseHandler c)
    (isStarted c) (loaderTask c) (remoteLoadStatus c) (mSelectionPolicy c)
    (defaultSelectionPolicy c) (isLoaderTaskFinished c) (isEmergencyLaunch c)
    (trace c).

Definition set_database (v : UpdatesDatabase) (c : Controller) : Controller :=
  mkController (updatesConfiguration c) (updatesDirectory c)
    (updatesDirectoryException c) (launcher c) v (databaseHandler c)
    (isStarted c) (loaderTask c) (remoteLoadStatus c) (mSelectionPolicy c)
    (defaultSelectionPolicy c) (isLoaderTaskFinished c) (isEmergencyLaunch c)
    (trace c).

Definition set_databaseHandler (v : option (list PostedTask)) (c : Controller)
    : Controller :=
  mkController (updatesConfiguration c) (updatesDirectory c)
    (updatesDirectoryException c) (launcher c) (database c) v
    (isStarted c) (loaderTask c) (remoteLoadStatus c) (mSelectionPolicy c)
    (defaultSelectionPolicy c) (isLoaderTaskFinished c) (isEmergencyLaunch c)
    (trace c).

Definition set_isStarted (v : bool) (c : Controller) : Controller :=
  mkController (updatesConfiguration c) (updatesDirectory c)
    (updatesDirectoryException c) (launcher c) (database c) (databaseHandler c)
    v (loaderTask c) (remoteLoadStatus c) (mSelectionPolicy c)
    (defaultSelectionPolicy c) (isLoaderTaskFinished c) (isEmergencyLaunch c)
    (trace c).

Definition set_loaderTask (v : option LoaderTask) (c : Controller) : Controller :=
  mkController (updatesConfiguration c) (updatesDirectory c)
    (updatesDirectoryException c) (launcher c) (database c) (databaseHandler c)
    (isStarted c) v (remoteLoadStatus c) (mSelectionPolicy c)
    (defaultSelectionPolicy c) (isLoaderTaskFinished c) (isEmergencyLaunch c)
    (trace c).

Definition set_remoteLoadStatus (v : RemoteLoadStatus) (c : Controller)
    : Controller :=
  mkController (updatesConfiguration c) (updatesDirectory c)
    (updatesDirectoryException c) (launcher c) (database c) (databaseHandler c)
    (isStarted c) (loaderTask c) v (mSelectionPolicy c)
    (defaultSelectionPolicy c) (isLoaderTaskFinished c) (isEmergencyLaunch c)
    (trace c).

Definition set_isLoaderTaskFinished (v : bool) (c : Controller) : Controller :=
  mkController (updatesConfiguration c) (updatesDirectory c)
    (updatesDirectoryException c) (launcher c) (database c) (databaseHandler c)
    (isStarted c) (loaderTask c) (remoteLoadStatus c) (mSelectionPolicy c)
    (defaultSelectionPolicy c) v (isEmergencyLaunch c) (trace c).

Definition set_isEmergencyLaunch (v : bool) (c : Controller) : Controller :=
  mkController (updatesConfiguration c) (updatesDirectory c)
    (updatesDirectoryException c) (launcher c) (database c) (databaseHandler c)
    (isStarted c) (loaderTask c) (remoteLoadStatus c) (mSelectionPolicy c)
    (defaultSelectionPolicy c) (isLoaderTaskFinished c) v (trace c).

Definition set_trace (v : list Effect) (c : Controller) : Controller :=
  mkController (updatesConfiguration c) (updatesDirectory c)
    (updatesDirectoryException c) (launcher c) (database c) (databaseHandler c)
    (isStarted c) (loaderTask c) (remoteLoadStatus c) (mSelectionPolicy c)
    (defaultSelectionPolicy c) (isLoaderTaskFinished c) (isEmergencyLaunch c) v.

(** Appending one effect to the trace. *)
Definition log (e : Effect) (c : Controller) : Controller :=
  set_trace (trace c ++ [e]) c.

(** *** Methods as state transformers that may throw *)

Definition M (A : Type) : Type := Controller -> Completion A * Controller.

Definition ret {A : Type} (a : A) : M A := fun c => (Returned a, c).

Definition throw {A : Type} (t : Throwable) : M A := fun c => (Threw t, c).

Definition bind {A B : Type} (m : M A) (k : A -> M B) : M B :=
  fun c =>
    match m c with
    | (Returned a, c') => k a c'
    | (Threw t, c') => (Threw t, c')
    end.

Definition get : M Controller := fun c => (Returned c, c).

Definition modify (f : Controller -> Controller) : M unit :=
  fun c => (Returned tt, f c).

Definition emit (e : Effect) : M unit := modify (log e).

(** [try body catch (e: Exception) handler]: errors that are not
    exceptions pass through. *)
Definition tryCatch {A : Type} (body : M A) (handler : Exception -> M A) : M A :=
  fun c =>
    match body c with
    | (Threw (ExceptionThrown e), c') => handler e c'
    | r => r
    end.

(** The state a call leaves behind, however it completed. *)
Definition after {A : Type} (m : M A) (c : Controller) : Controller := (m c).2.

Declare Scope controller_scope.
Delimit Scope controller_scope with controller.
Notation "x <- m ;; k" := (bind m (fun x => k))
  (at level 100, m at next level, right associativity) : controller_scope.
Notation "m ;; k" := (bind m (fun _ => k))
  (at level 100, right associativity) : controller_scope.
Local Open Scope controller_scope.

(** *** The controller *)

(** The primary constructor with its [init] block (lines 1006-1013): a
    failure to create the updates directory is kept, not thrown.
    [db] is [UpdatesDatabase.getInstance(context)] and [policy] the result
    of [SelectionPolicyFactory.createFilterAwarePolicy]. *)
Definition newController (context : Context)
    (configuration : UpdatesConfiguration) (db : UpdatesDatabase)
    (policy : SelectionPolicy) : Controller :=
  {| updatesConfiguration := configuration;
     updatesDirectory :=
       match getOrCreateUpdatesDirectory context with
       | inr dir => Some dir
       | inl _ => None
       end;
     updatesDirectoryException :=
       match getOrCreateUpdatesDirectory context with
       | inr _ => None
       | inl e => Some e
       end;
     launcher := None;
     database := db;
     databaseHandler := None;
     isStarted := false;
     loaderTask := None;
     remoteLoadStatus := IDLE;
     mSelectionPolicy := None;
     defaultSelectionPolicy := policy;
     isLoaderTaskFinished := false;
     isEmergencyLaunch := false;
     trace := [] |}.

(** [val launchedUpdate get() = launcher?.launchedUpdate], line 284. *)
Definition launchedUpdate (c : Controller) : option UpdateEntity :=
  match launcher c with
  | Some l => Launcher.launchedUpdate l
  | None => None
  end.

(** [val isUsingEmbeddedAssets get() = launcher?.isUsingEmbeddedAssets ?: false]. *)
Definition isUsingEmbeddedAssets (c : Controller) : bool :=
  match launcher c with
  | Some l => Launcher.isUsingEmbeddedAssets l
  | None => false
  end.

(** [val bundleAssetName get() = launcher?.bundleAssetName], line 259. *)
Definition bundleAssetName (c : Controller) : option string :=
  match launcher c with
  | Some l => Launcher.bundleAssetName l
  | None => None
  end.

(** [launcher?.launchAssetFile], the value [launchAssetFile] returns. *)
Definition launcherLaunchAssetFile (c : Controller) : option string :=
  match launcher c with
  | Some l => Launcher.launchAssetFile l
  | None => None
  end.

(** [val selectionPolicy get() = mSelectionPolicy ?: defaultSelectionPolicy]. *)
Definition selectionPolicy (c : Controller) : SelectionPolicy :=
  match mSelectionPolicy c with
  | Some p => p
  | None => defaultSelectionPolicy c
  end.

(** [getDatabase()]: takes the lease of [databaseHolder]. *)
Definition getDatabase : M UpdatesDatabase :=
  emit EvGetDatabase ;; c <- get ;; ret (database c).

Definition releaseDatabase : M unit := emit EvReleaseDatabase.

(** [stateMachine.processEvent(event)]. *)
Definition processEvent (event : UpdatesStateEvent) : M unit :=
  emit (EvProcessEvent event).

(** [setLauncher], line 314. *)
Definition setLauncher (l : option Launcher.t) : M unit :=
  modify (set_launcher l).

(** [notifyController], lines 487-494. *)
Definition notifyController : M unit :=
  c <- get ;;
  match launcher c with
  | None =>
      throw (AssertionError
        "UpdatesController.notifyController was called with a null launcher")
  | Some _ =>
      modify (set_isLoaderTaskFinished true) ;;
      emit EvNotify
  end.

(** [initializeDatabaseHandler], lines 177-182. *)
Definition initializeDatabaseHandler : M unit :=
  c <- get ;;
  match databaseHandler c with
  | None => modify (set_databaseHandler (Some []))
  | Some _ => ret tt
  end.

(** [start], lines 324-485.  The callbacks of the [LoaderTask] it creates
    are the definitions [loaderTask_...] below; they run when the task
    calls them. *)
Definition start (context : Context) : M unit :=
  c <- get ;;
  if isStarted c then ret tt
  else
    modify (set_isStarted true) ;;
    if negb (isEnabled (updatesConfiguration c)) then
      modify (set_launcher (Some (NoDatabaseLauncher None))) ;;
      notifyController
    else
      match updateUrl (updatesConfiguration c),
            scopeKey (updatesConfiguration c) with
      | Some _, Some _ =>
          match updatesDirectory c with
          | None =>
              modify (set_launcher
                        (Some (NoDatabaseLauncher (updatesDirectoryException c)))) ;;
              modify (set_isEmergencyLaunch true) ;;
              notifyController
          | Some _ =>
              emit EvPurgeUpdatesLogs ;;
              initializeDatabaseHandler ;;
              emit EvErrorRecoveryInitialize ;;
              databaseLocal <- getDatabase ;;
              modify (set_database
                        (ensureBuildDataIsConsistent context
                           (updatesConfiguration c) databaseLocal)) ;;
              releaseDatabase ;;
              modify (set_loaderTask (Some {| isRunning := true |})) ;;
              emit EvLoaderTaskStart
          end
      | _, _ =>
          throw (AssertionError
            "expo-updates is enabled, but no valid URL is configured")
      end.

(** [LoaderTaskCallback.onFailure], lines 362-367. *)
Definition loaderTask_onFailure (e : Exception) : M unit :=
  modify (set_launcher (Some (NoDatabaseLauncher (Some e)))) ;;
  modify (set_isEmergencyLaunch true) ;;
  notifyController.

(** [LoaderTaskCallback.onRemoteUpdateManifestResponseManifestLoaded]. *)
Definition loaderTask_onRemoteUpdateManifestResponseManifestLoaded : M unit :=
  modify (set_remoteLoadStatus NEW_UPDATE_LOADING).

(** [LoaderTaskCallback.onSuccess], lines 390-396. *)
Definition loaderTask_onSuccess (l : Launcher.t) (isUpToDate : bool) : M unit :=
  c <- get ;;
  (match remoteLoadStatus c, isUpToDate with
   | NEW_UPDATE_LOADING, true => modify (set_remoteLoadStatus IDLE)
   | _, _ => ret tt
   end) ;;
  modify (set_launcher (Some l)) ;;
  notifyController.

(** [databaseHandler.post { ... }]. *)
Definition post (task : PostedTask) : M unit :=
  c <- get ;;
  match databaseHandler c with
  | None => throw (UninitializedPropertyAccessException "databaseHandler")
  | Some queue => modify (set_databaseHandler (Some (queue ++ [task])))
  end.

(** [markFailedLaunchForLaunchedUpdate], lines 542-552: the call itself. *)
Definition markFailedLaunchForLaunchedUpdate : M unit :=
  c <- get ;;
  if isEmergencyLaunch c then ret tt else post PostedMarkFailedLaunch.

(** [markSuccessfulLaunchForLaunchedUpdate], lines 554-564. *)
Definition markSuccessfulLaunchForLaunchedUpdate : M unit :=
  c <- get ;;
  if isEmergencyLaunch c then ret tt else post PostedMarkSuccessfulLaunch.

(** The body of a posted closure, run on the database thread: it reads
    [launchedUpdate] when it runs. *)
Definition runPostedTask (task : PostedTask) : M unit :=
  c <- get ;;
  match launchedUpdate c with
  | None => ret tt
  | Some launched =>
      db <- getDatabase ;;
      modify (set_database
                (match task with
                 | PostedMarkFailedLaunch => incrementFailedLaunchCount launched db
                 | PostedMarkSuccessfulLaunch =>
                     incrementSuccessfulLaunchCount launched db
                 end)) ;;
      releaseDatabase
  end.

(** The database thread takes the oldest posted closure and runs it. *)
Definition handlerRunNext : M unit :=
  c <- get ;;
  match databaseHandler c with
  | Some (task :: queue) =>
      modify (set_databaseHandler (Some queue)) ;;
      runPostedTask task
  | _ => ret tt
  end.

(** *** [checkForUpdate], lines 679-794 *)

(** What [fileDownloader.downloadRemoteUpdate] reports to its callback. *)
Inductive RemoteUpdateDownload : Type :=
| DownloadFailed (message : string) (e : Exception)
| DownloadSucceeded (updateResponse : UpdateResponse).

(** [callback(result)]: the caller's callback of [checkForUpdate]. *)
Definition callback (result : CheckForUpdateResult) : M unit :=
  emit (EvCheckForUpdateCallback result).

(** [RemoteUpdateDownloadCallback.onFailure], lines 696-699. *)
Definition checkForUpdate_onFailure (message : string) (e : Exception) : M unit :=
  processEvent (CheckError message) ;;
  callback (ErrorResult e message).

(** Lines 751-776: the pair [(shouldLaunch, failedPreviously)]. *)
Definition checkForUpdate_shouldLaunch (updateManifest : UpdateManifest)
    (updateResponse : UpdateResponse) : M (bool * bool) :=
  c <- get ;;
  if shouldLoadNewUpdate (selectionPolicy c) (updateEntity updateManifest)
       (launchedUpdate c) (responseFilters updateResponse)
  then
    match updateEntity updateManifest with
    | Some entity =>
        db <- getDatabase ;;
        let storedUpdateEntity := loadUpdateWithId db (id entity) in
        releaseDatabase ;;
        match storedUpdateEntity with
        | Some stored =>
            let shouldLaunch := Nat.eqb (failedLaunchCount stored) 0 in
            ret (shouldLaunch, negb shouldLaunch)
        | None => ret (true, false)
        end
    | None => ret (true, false)
    end
  else ret (false, false).

(** [RemoteUpdateDownloadCallback.onSuccess], lines 701-790.
    [embeddedUpdate] is the value captured when the task started. *)
Definition checkForUpdate_onSuccess (embeddedUpdate : option UpdateEntity)
    (updateResponse : UpdateResponse) : M unit :=
  let updateDirective := directiveUpdateResponsePart updateResponse in
  let updateManifest := manifestUpdateResponsePart updateResponse in
  c <- get ;;
  match updateDirective with
  | Some (RollBackToEmbeddedUpdateDirective directiveCommitTime as directive) =>
      if negb (hasEmbeddedUpdate (updatesConfiguration c)) then
        callback (NoUpdateAvailable ROLLBACK_NO_EMBEDDED) ;;
        processEvent CheckCompleteUnavailable
      else
        match embeddedUpdate with
        | None =>
            callback (NoUpdateAvailable ROLLBACK_NO_EMBEDDED) ;;
            processEvent CheckCompleteUnavailable
        | Some embedded =>
            if negb (shouldLoadRollBackToEmbeddedDirective (selectionPolicy c)
                       directive embedded (launchedUpdate c)
                       (responseFilters updateResponse))
            then
              callback (NoUpdateAvailable ROLLBACK_REJECTED_BY_SELECTION_POLICY) ;;
              processEvent CheckCompleteUnavailable
            else
              callback (RollBackToEmbedded directiveCommitTime) ;;
              processEvent (CheckCompleteWithRollback directiveCommitTime)
        end
  | _ =>
      match updateManifest with
      | None =>
          (* line 739 builds [UpdatesStateEvent.CheckCompleteUnavailable()]
             and drops it: no [processEvent] on this path *)
          callback (NoUpdateAvailable NO_UPDATE_AVAILABLE_ON_SERVER)
      | Some updateManifest =>
          match launchedUpdate c with
          | None =>
              callback (UpdateAvailable updateManifest) ;;
              processEvent (CheckCompleteWithUpdate (rawJson updateManifest))
          | Some _ =>
              decision <- checkForUpdate_shouldLaunch updateManifest updateResponse ;;
              let '(shouldLaunch, failedPreviously) := decision in
              if shouldLaunch then
                callback (UpdateAvailable updateManifest) ;;
                processEvent (CheckCompleteWithUpdate (rawJson updateManifest))
              else
                let reason :=
                  if failedPreviously then UPDATE_PREVIOUSLY_FAILED
                  else UPDATE_REJECTED_BY_SELECTION_POLICY in
                callback (NoUpdateAvailable reason) ;;
                processEvent CheckCompleteUnavailable
          end
      end
  end.

(** The body handed to [AsyncTask.execute], lines 683-792, with the
    outcome of the download it starts. *)
Definition checkForUpdate_task (context : Context)
    (download : RemoteUpdateDownload) : M unit :=
  c <- get ;;
  let embeddedUpdate :=
    match embeddedManifest context (updatesConfiguration c) with
    | Some m => updateEntity m
    | None => None
    end in
  _ <- getDatabase ;;
  releaseDatabase ;;
  emit EvDownloadRemoteUpdate ;;
  match download with
  | DownloadFailed message e => checkForUpdate_onFailure message e
  | DownloadSucceeded updateResponse =>
      checkForUpdate_onSuccess embeddedUpdate updateResponse
  end.

(** [checkForUpdate(context, callback)]: the [Check] event, then the task. *)
Definition checkForUpdate (context : Context)
    (download : RemoteUpdateDownload) : M unit :=
  processEvent Check ;;
  checkForUpdate_task context download.

(** *** [getExtraParams] and [setExtraParam], lines 902-954 *)

(** A callback object of the caller.  Each method says whether it returns
    ([None]) or throws, since both are called inside [try]. *)
Record GetExtraParamsCallback : Type := mkGetExtraParamsCallback {
  getExtraParams_onFailure : Exception -> option Exception;
  getExtraParams_onSuccess : Bundle -> option Exception
}.

Record SetExtraParamsCallback : Type := mkSetExtraParamsCallback {
  setExtraParam_onFailure : Exception -> option Exception;
  setExtraParam_onSuccess : option Exception
}.

(** Calling a callback method: the call is recorded, then it returns or
    throws. *)
Definition invoke (call : Effect) (outcome : option Exception) : M unit :=
  emit call ;;
  match outcome with
  | None => ret tt
  | Some e => throw (ExceptionThrown e)
  end.

(** [getExtraParams], lines 907-931.  [metadata] is
    [ManifestMetadata.getExtraParams], outside the sources: it reads the
    database and returns a nullable map, or throws an [Exception] (a JVM
    [Error], which [catch (e: Exception)] lets through, is not among its
    outcomes here). *)
Definition getExtraParams
    (metadata : UpdatesDatabase -> UpdatesConfiguration ->
                Exception + option (list (string * string)))
    (cb : GetExtraParamsCallback) : M unit :=
  tryCatch
    (db <- getDatabase ;;
     c <- get ;;
     result <- (match metadata db (updatesConfiguration c) with
                | inl e => throw (ExceptionThrown e)
                | inr r => ret r
                end) ;;
     releaseDatabase ;;
     let resultMap : Bundle :=
       match result with
       | None => []
       | Some entries => entries
       end in
     invoke (EvGetExtraParamsOnSuccess resultMap)
            (getExtraParams_onSuccess cb resultMap))
    (fun e =>
       releaseDatabase ;;
       invoke (EvGetExtraParamsOnFailure e) (getExtraParams_onFailure cb e)).

(** [setExtraParam], lines 938-954.  [metadata] is
    [ManifestMetadata.setExtraParam]: it writes the database or throws. *)
Definition setExtraParam
    (metadata : UpdatesDatabase -> UpdatesConfiguration -> string ->
                option string -> Exception + UpdatesDatabase)
    (key : string) (value : option string) (cb : SetExtraParamsCallback)
    : M unit :=
  tryCatch
    (db <- getDatabase ;;
     c <- get ;;
     (match metadata db (updatesConfiguration c) key value with
      | inl e => throw (ExceptionThrown e)
      | inr db' => modify (set_database db')
      end) ;;
     releaseDatabase ;;
     invoke EvSetExtraParamOnSuccess (setExtraParam_onSuccess cb))
    (fun e =>
       releaseDatabase ;;
       invoke (EvSetExtraParamOnFailure e) (setExtraParam_onFailure cb e)).

(** *** [launchAssetFile], lines 240-251 *)

(** What other threads can do to the controller while a caller of
    [launchAssetFile] is inside [wait()]. *)
Inductive Action : Type :=
| ActStart (context : Context)
| ActLoaderTaskOnSuccess (l : Launcher.t) (isUpToDate : bool)
| ActLoaderTaskOnFailure (e : Exception)
| ActLoaderTaskManifestLoaded
| ActSetLauncher (l : option Launcher.t)
| ActMarkFailedLaunch
| ActMarkSuccessfulLaunch
| ActHandlerRunNext
| ActCheckForUpdate (context : Context) (download : RemoteUpdateDownload)
| ActGetExtraParams
    (metadata : UpdatesDatabase -> UpdatesConfiguration ->
                Exception + option (list (string * string)))
    (cb : GetExtraParamsCallback)
| ActSetExtraParam
    (metadata : UpdatesDatabase -> UpdatesConfiguration -> string ->
                option string -> Exception + UpdatesDatabase)
    (key : string) (value : option string) (cb : SetExtraParamsCallback).

Definition perform (a : Action) (c : Controller) : Controller :=
  match a with
  | ActStart context => after (start context) c
  | ActLoaderTaskOnSuccess l isUpToDate => after (loaderTask_onSuccess l isUpToDate) c
  | ActLoaderTaskOnFailure e => after (loaderTask_onFailure e) c
  | ActLoaderTaskManifestLoaded =>
      after loaderTask_onRemoteUpdateManifestResponseManifestLoaded c
  | ActSetLauncher l => after (setLauncher l) c
  | ActMarkFailedLaunch => after markFailedLaunchForLaunchedUpdate c
  | ActMarkSuccessfulLaunch => after markSuccessfulLaunchForLaunchedUpdate c
  | ActHandlerRunNext => after handlerRunNext c
  | ActCheckForUpdate context download => after (checkForUpdate context download) c
  | ActGetExtraParams metadata cb => after (getExtraParams metadata cb) c
  | ActSetExtraParam metadata key value cb =>
      after (setExtraParam metadata key value cb) c
  end.

(** What happens while the caller is blocked: another thread acts, or
    [wait()] returns (a [notify], a spurious wake-up, or an
    [InterruptedException], which the loop catches and logs). *)
Inductive Tick : Type :=
| Other (a : Action)
| Wake.

(** A run of [launchAssetFile] against a schedule: the value returned with
    the state at that moment and the unused rest of the schedule, or the
    state in which the caller is still inside [wait()] when the schedule
    ends. *)
Inductive LaunchAssetFileRun : Type :=
| AssetFileReturned (path : option string) (c : Controller) (rest : list Tick)
| StillWaiting (c : Controller).

(** The caller is inside [wait()]. *)
Fixpoint waiting (schedule : list Tick) (c : Controller) : LaunchAssetFileRun :=
  match schedule with
  | [] => StillWaiting c
  | Other a :: rest => waiting rest (perform a c)
  | Wake :: rest =>
      if isLoaderTaskFinished c then
        AssetFileReturned (launcherLaunchAssetFile c) c rest
      else waiting rest (log EvWait c)
  end.

(** The getter: [while (!isLoaderTaskFinished) wait(); return
    launcher?.launchAssetFile]. *)
Definition launchAssetFile (schedule : list Tick) (c : Controller)
    : LaunchAssetFileRun :=
  if isLoaderTaskFinished c then
    AssetFileReturned (launcherLaunchAssetFile c) c schedule
  else waiting schedule (log EvWait c).

(** *** Reading a trace *)

Definition isNotify (e : Effect) : bool :=
  match e with EvNotify => true | _ => false end.

Definition isGetDatabase (e : Effect) : bool :=
  match e with EvGetDatabase => true | _ => false end.

Definition isReleaseDatabase (e : Effect) : bool :=
  match e with EvReleaseDatabase => true | _ => false end.

Definition isCheckCallback (e : Effect) : bool :=
  match e with EvCheckForUpdateCallback _ => true | _ => false end.

(** The terminal events of a check: every [Check*] event of section 4.4. *)
Definition isTerminalCheckEvent (e : Effect) : bool :=
  match e with
  | EvProcessEvent CheckCompleteUnavailable
  | EvProcessEvent (CheckCompleteWithUpdate _)
  | EvProcessEvent (CheckCompleteWithRollback _)
  | EvProcessEvent (CheckError _) => true
  | _ => false
  end.

(** The results a trace delivered to the callback of [checkForUpdate]. *)
Definition callbacksOf (t : list Effect) : list CheckForUpdateResult :=
  omap (fun e =>
          match e with
          | EvCheckForUpdateCallback r => Some r
          | _ => None
          end) t.

(** The events a trace sent to [stateMachine.processEvent]. *)
Definition eventsOf (t : list Effect) : list UpdatesStateEvent :=
  omap (fun e =>
          match e with
          | EvProcessEvent event => Some event
          | _ => None
          end) t.

(** How many effects of a trace satisfy a test. *)
Definition count (p : Effect -> bool) (t : list Effect) : nat :=
  length (filter (fun e => p e = true) t).

(** The effects a call appended: what [c'] has logged beyond [c]. *)
Definition added (c c' : Controller) : list Effect :=
  drop (length (trace c)) (trace c').

(** [c'] continues [c]: its trace extends that of [c], and
    [isLoaderTaskFinished] is what it was unless a [notify] was logged in
    between, in which case it is set. *)
Definition continues (c c' : Controller) : Prop :=
  exists t, trace c' = trace c ++ t
    /\ isLoaderTaskFinished c' = isLoaderTaskFinished c || existsb isNotify t.

(** What every [checkForUpdate] logs before the download reports back:
    the [Check] event, the lease taken and released for the request
    headers, and the request. *)
Definition checkPrefix : list Effect :=
  [EvProcessEvent Check; EvGetDatabase; EvReleaseDatabase; EvDownloadRemoteUpdate].

(** [EmbeddedManifest.get(context, updatesConfiguration)?.updateEntity]. *)
Definition embeddedUpdateOf (context : Context) (c : Controller)
    : option UpdateEntity :=
  match embeddedManifest context (updatesConfiguration c) with
  | Some m => updateEntity m
  | None => None
  end.

(** The downloads that take [onSuccess] to its line 737-741: a response
    without manifest whose directive, if any, is not a roll-back. *)
Definition reachesLine739 (download : RemoteUpdateDownload) : bool :=
  match download with
  | DownloadSucceeded r =>
      match directiveUpdateResponsePart r, manifestUpdateResponsePart r with
      | Some (RollBackToEmbeddedUpdateDirective _), _ => false
      | _, None => true
      | _, Some _ => false
      end
  | DownloadFailed _ _ => false
  end.

(** A method every run of which leaves a state that continues the one
    it started from. *)
Definition steady {A : Type} (m : M A) : Prop :=
  forall c, continues c (m c).2.

(** *** The launch counters *)

(** One step of a history of the two [mark...] calls of the error-recovery
    delegate and of the database thread that runs what they posted. *)
Inductive MarkStep : Type :=
| CallMarkFailedLaunch
| CallMarkSuccessfulLaunch
| DatabaseThreadRuns.

Definition markStep (s : MarkStep) (c : Controller) : Controller :=
  match s with
  | CallMarkFailedLaunch => after markFailedLaunchForLaunchedUpdate c
  | CallMarkSuccessfulLaunch => after markSuccessfulLaunchForLaunchedUpdate c
  | DatabaseThreadRuns => after handlerRunNext c
  end.

Definition markSteps (steps : list MarkStep) (c : Controller) : Controller :=
  fold_left (fun c s => markStep s c) steps c.

(** No row of [db] is missing from [db'] or has a smaller counter there. *)
Definition neverDecreased (db db' : UpdatesDatabase) : Prop :=
  forall (i : string) (u : UpdateEntity),
    updates db !! i = Some u ->
    exists u', updates db' !! i = Some u'
      /\ failedLaunchCount u <= failedLaunchCount u'
      /\ successfulLaunchCount u <= successfulLaunchCount u'.

(** *** The state machine, to read the processed events *)

Inductive UpdatesStateValue : Type :=
| Idle
| Checking
| Downloading
| Restarting.

(** Modelled from the spec: [UpdatesStateMachine] is not among the sources.
    The transition table of section 4.4; [None] is a rejected event, which
    is logged and discarded. *)
Definition transition (s : UpdatesStateValue) (e : UpdatesStateEvent)
    : option UpdatesStateValue :=
  match e, s with
  | Restart, _ => Some Restarting
  | Check, Idle => Some Checking
  | (CheckCompleteUnavailable | CheckCompleteWithUpdate _
     | CheckCompleteWithRollback _ | CheckError _), Checking => Some Idle
  | Download, (Idle | Checking) => Some Downloading
  | (DownloadComplete | DownloadCompleteWithUpdate _
     | DownloadCompleteWithRollback | DownloadError _), Downloading => Some Idle
  | _, _ => None
  end.

(** The state of the machine after the events a trace processed. *)
Definition machineState (s : UpdatesStateValue) (t : list Effect)
    : UpdatesStateValue :=
  fold_left
    (fun s e =>
       match e with
       | EvProcessEvent event =>
           match transition s event with
           | Some s' => s'
           | None => s
           end
       | _ => s
       end) t s.

(** *** The rest of the controller *)

Definition set_mSelectionPolicy (v : option SelectionPolicy) (c : Controller)
    : Controller :=
  mkController (updatesConfiguration c) (updatesDirectory c)
    (updatesDirectoryException c) (launcher c) (database c) (databaseHandler c)
    (isStarted c) (loaderTask c) (remoteLoadStatus c) v
    (defaultSelectionPolicy c) (isLoaderTaskFinished c) (isEmergencyLaunch c)
    (trace c).

(** [setNextSelectionPolicy], line 302, and [resetSelectionPolicyToDefault],
    line 306. *)
Definition setNextSelectionPolicy (p : option SelectionPolicy) : M unit :=
  modify (set_mSelectionPolicy p).

Definition resetSelectionPolicyToDefault : M unit :=
  modify (set_mSelectionPolicy None).

(** [Loader.LoaderCallback.onUpdateResponseLoaded] as the controller
    implements it for [loadRemoteUpdate] (lines 522-535) and, with the same
    text, for [fetchUpdate] (lines 841-862): the value of
    [shouldDownloadManifestIfPresentInResponse]. *)
Definition onUpdateResponseLoaded (c : Controller)
    (updateResponse : UpdateResponse) : bool :=
  match directiveUpdateResponsePart updateResponse with
  | Some (RollBackToEmbeddedUpdateDirective _) => false
  | Some NoUpdateAvailableUpdateDirective => false
  | None =>
      match manifestUpdateResponsePart updateResponse with
      | None => false
      | Some updateManifest =>
          shouldLoadNewUpdate (selectionPolicy c) (updateEntity updateManifest)
            (launchedUpdate c) (responseFilters updateResponse)
      end
  end.

(** [Loader.LoaderResult], by the two fields the controller reads. *)
Record LoaderResult : Type := mkLoaderResult {
  loadedUpdateEntity : option UpdateEntity;
  loadedUpdateDirective : option UpdateDirective
}.

(** What a [RemoteLoader] reports to its callback. *)
Inductive RemoteLoad : Type :=
| RemoteLoadFailed (e : Exception)
| RemoteLoadSucceeded (loaderResult : LoaderResult).

(** A run of the [RemoteLoader] that [fetchUpdate] starts, the class being
    outside the sources: what it reports, the catalog it (and, after a
    success, [RemoteLoader.processSuccessLoaderResult]) leaves behind, and
    the two values that helper passes to its continuation. *)
Record FetchRun : Type := mkFetchRun {
  fetchLoad : RemoteLoad;
  fetchCatalog : UpdatesDatabase;
  availableUpdate : option UpdateEntity;
  didRollBackToEmbedded : bool
}.

(** [FetchUpdateResult], lines 796-808. *)
Inductive FetchUpdateResult : Type :=
| FetchSuccess (update : UpdateEntity)
| FetchFailure
| FetchRollBackToEmbedded
| FetchErrorResult (error : Exception).

(** [fetchUpdate], lines 810-900.  The value of the computation is the
    result handed to the caller's callback, which the source calls after
    [releaseDatabase] and before the terminal [processEvent].  The cast
    [loaderResult.updateEntity as UpdateEntity] throws on null. *)
Definition fetchUpdate (run : FetchRun) : M FetchUpdateResult :=
  processEvent Download ;;
  _ <- getDatabase ;;
  modify (set_database (fetchCatalog run)) ;;
  match fetchLoad run with
  | RemoteLoadFailed e =>
      releaseDatabase ;;
      processEvent (DownloadError ("Failed to download new update: " +:+ e)) ;;
      ret (FetchErrorResult e)
  | RemoteLoadSucceeded loaderResult =>
      releaseDatabase ;;
      if didRollBackToEmbedded run then
        processEvent DownloadCompleteWithRollback ;;
        ret FetchRollBackToEmbedded
      else
        match availableUpdate run with
        | None =>
            processEvent DownloadComplete ;;
            ret FetchFailure
        | Some _ =>
            resetSelectionPolicyToDefault ;;
            match loadedUpdateEntity loaderResult with
            | None =>
                throw (ExceptionThrown
                  "null cannot be cast to non-null type UpdateEntity")
            | Some entity =>
                processEvent (DownloadCompleteWithUpdate (manifest entity)) ;;
                ret (FetchSuccess entity)
            end
        end
  end.

(** The terminal event that goes with a result of [fetchUpdate]. *)
Definition terminalDownloadEvent (r : FetchUpdateResult) : UpdatesStateEvent :=
  match r with
  | FetchSuccess u => DownloadCompleteWithUpdate (manifest u)
  | FetchFailure => DownloadComplete
  | FetchRollBackToEmbedded => DownloadCompleteWithRollback
  | FetchErrorResult e => DownloadError ("Failed to download new update: " +:+ e)
  end.

(** [setRemoteLoadStatus], lines 204-207: the value of the computation is
    the list of statuses passed to [errorRecovery.notifyNewRemoteLoadStatus]. *)
Definition setRemoteLoadStatus (status : RemoteLoadStatus)
    : M (list RemoteLoadStatus) :=
  modify (set_remoteLoadStatus status) ;;
  ret [status].

(** [ErrorRecoveryDelegate.loadRemoteUpdate], lines 498-537, with the run
    of the [RemoteLoader] it starts: what the loader reports and the
    catalog it leaves. *)
Definition loadRemoteUpdate (load : RemoteLoad) (catalog : UpdatesDatabase)
    : M (list RemoteLoadStatus) :=
  c <- get ;;
  match loaderTask c with
  | Some {| isRunning := true |} => ret []
  | _ =>
      modify (set_remoteLoadStatus NEW_UPDATE_LOADING) ;;
      _ <- getDatabase ;;
      modify (set_database catalog) ;;
      match load with
      | RemoteLoadFailed e =>
          notified <- setRemoteLoadStatus IDLE ;;
          releaseDatabase ;;
          ret notified
      | RemoteLoadSucceeded loaderResult =>
          notified <-
            setRemoteLoadStatus
              (match loadedUpdateEntity loaderResult,
                     loadedUpdateDirective loaderResult with
               | Some _, _ => NEW_UPDATE_LOADED
               | None, Some (RollBackToEmbeddedUpdateDirective _) =>
                   NEW_UPDATE_LOADED
               | None, _ => IDLE
               end) ;;
          releaseDatabase ;;
          ret notified
      end
  end.

(** The companion object, lines 966-1003: [singletonInstance] is the
    state.  [configuration] is the [UpdatesConfiguration] built from the
    context (and, for the second overload of [initialize], the map). *)
Definition initializeWithoutStarting (context : Context)
    (configuration : UpdatesConfiguration) (db : UpdatesDatabase)
    (policy : SelectionPolicy) (singletonInstance : option Controller)
    : option Controller :=
  match singletonInstance with
  | None => Some (newController context configuration db policy)
  | Some _ => singletonInstance
  end.

Definition initialize (context : Context)
    (configuration : UpdatesConfiguration) (db : UpdatesDatabase)
    (policy : SelectionPolicy) (singletonInstance : option Controller)
    : Completion unit * option Controller :=
  match singletonInstance with
  | None =>
      let r := start context (newController context configuration db policy) in
      (r.1, Some r.2)
  | Some _ => (Returned tt, singletonInstance)
  end.

(** *** Reading more of a state and of a trace *)

(** A history of actions, oldest first. *)
Definition performAll (actions : list Action) (c : Controller) : Controller :=
  fold_left (fun c a => perform a c) actions c.

(** [updateUrl != null && scopeKey != null]. *)
Definition hasUpdateUrlAndScopeKey (cfg : UpdatesConfiguration) : bool :=
  match updateUrl cfg, scopeKey cfg with
  | Some _, Some _ => true
  | _, _ => false
  end.

(** What no action may change, and the two flags no action may reset. *)
Definition sameSettings (c c' : Controller) : Prop :=
  updatesConfiguration c' = updatesConfiguration c
  /\ updatesDirectory c' = updatesDirectory c
  /\ updatesDirectoryException c' = updatesDirectoryException c
  /\ mSelectionPolicy c' = mSelectionPolicy c
  /\ defaultSelectionPolicy c' = defaultSelectionPolicy c
  /\ (isStarted c = true -> isStarted c' = true)
  /\ (isEmergencyLaunch c = true -> isEmergencyLaunch c' = true).

Definition isCallbackEffect (e : Effect) : bool :=
  match e with
  | EvCheckForUpdateCallback _
  | EvGetExtraParamsOnSuccess _ | EvGetExtraParamsOnFailure _
  | EvSetExtraParamOnSuccess | EvSetExtraParamOnFailure _ => true
  | _ => false
  end.

(** The lease along a trace, starting held or free: [None] when the lease
    is taken while held, released while free, or held while a callback of
    the caller runs; otherwise whether it is held at the end. *)
Fixpoint leaseProtocol (held : bool) (t : list Effect) : option bool :=
  match t with
  | [] => Some held
  | EvGetDatabase :: t' => if held then None else leaseProtocol true t'
  | EvReleaseDatabase :: t' => if held then leaseProtocol false t' else None
  | e :: t' =>
      if isCallbackEffect e && held then None else leaseProtocol held t'
  end.

(** The callbacks an action brings along return normally when called
    after a successful metadata operation. *)
Definition callbacksReturn (a : Action) : Prop :=
  match a with
  | ActGetExtraParams _ cb => forall b, getExtraParams_onSuccess cb b = None
  | ActSetExtraParam _ _ _ cb => setExtraParam_onSuccess cb = None
  | _ => True
  end.

(** *** Concrete engines, for examples *)

(** Modelled from the spec: the default policy of section 4.1, without
    filters: a candidate is loaded iff it is newer than the launched
    update (there being nothing to compare with when none is launched). *)
Definition policyByCommitTime : SelectionPolicy :=
  {| shouldLoadNewUpdate candidate launched _ :=
       match candidate, launched with
       | Some n, Some l => (commitTime l <? commitTime n)%Z
       | Some _, None => true
       | None, _ => false
       end;
     shouldLoadRollBackToEmbeddedDirective directive _ launched _ :=
       match directive, launched with
       | RollBackToEmbeddedUpdateDirective t, Some l => (commitTime l <? t)%Z
       | RollBackToEmbeddedUpdateDirective _, None => true
       | NoUpdateAvailableUpdateDirective, _ => false
       end |}.

Definition embeddedU : UpdateEntity :=
  {| id := "embedded"; commitTime := 100%Z; manifest := "{embedded}";
     failedLaunchCount := 0; successfulLaunchCount := 0 |}.

Definition updateU2 : UpdateEntity :=
  {| id := "U2"; commitTime := 300%Z; manifest := "{U2}";
     failedLaunchCount := 0; successfulLaunchCount := 1 |}.

(** An update that was stored and has failed to launch once. *)
Definition updateU3 : UpdateEntity :=
  {| id := "U3"; commitTime := 350%Z; manifest := "{U3}";
     failedLaunchCount := 1; successfulLaunchCount := 0 |}.

(** A new update, not stored. *)
Definition updateU4 : UpdateEntity :=
  {| id := "U4"; commitTime := 500%Z; manifest := "{U4}";
     failedLaunchCount := 0; successfulLaunchCount := 0 |}.

Definition manifestOf (u : UpdateEntity) : UpdateManifest :=
  {| updateEntity := Some u; rawJson := manifest u |}.

Definition catalogU2U3 : UpdatesDatabase :=
  {| updates := <[ "U3" := updateU3 ]> (<[ "U2" := updateU2 ]> ∅);
     jsonData := ∅ |}.

Definition enabledConfiguration : UpdatesConfiguration :=
  {| isEnabled := true; updateUrl := Some "https://u.expo.dev/app";
     scopeKey := Some "app"; hasEmbeddedUpdate := true |}.

Definition disabledConfiguration : UpdatesConfiguration :=
  {| isEnabled := false; updateUrl := None; scopeKey := None;
     hasEmbeddedUpdate := true |}.

(** A context whose updates directory can be created. *)
Definition contextOk : Context :=
  {| getOrCreateUpdatesDirectory := inr "/data/files/.expo-internal";
     embeddedManifest := fun _ => Some (manifestOf embeddedU);
     ensureBuildDataIsConsistent := fun _ db => db |}.

(** A context whose updates directory cannot be created. *)
Definition contextNoDirectory : Context :=
  {| getOrCreateUpdatesDirectory := inl "mkdirs failed";
     embeddedManifest := fun _ => Some (manifestOf embeddedU);
     ensureBuildDataIsConsistent := fun _ db => db |}.

(** The controller as constructed in each of these settings. *)
Definition engineNew : Controller :=
  newController contextOk enabledConfiguration catalogU2U3 policyByCommitTime.

Definition engineNewNoDirectory : Controller :=
  newController contextNoDirectory enabledConfiguration catalogU2U3
    policyByCommitTime.

Definition engineNewDisabled : Controller :=
  newController contextOk disabledConfiguration catalogU2U3 policyByCommitTime.

(** The launcher of a stored update, as a [DatabaseLauncher] leaves it. *)
Definition launcherOf (u : UpdateEntity) : Launcher.t :=
  {| Launcher.launchedUpdate := Some u;
     Launcher.launchAssetFile :=
       Some ("/data/files/.expo-internal/" +:+ id u);
     Launcher.bundleAssetName := None;
     Launcher.localAssetFiles := Some [];
     Launcher.isUsingEmbeddedAssets := false |}.

(** The engine after a regular [start]; after the loader task then
    delivered the launcher of U2; after a [start] without updates
    directory; after a [start] with updates disabled. *)
Definition engineStarted : Controller := after (start contextOk) engineNew.

Definition engineLaunchedU2 : Controller :=
  after (loaderTask_onSuccess (launcherOf updateU2) true) engineStarted.

Definition engineEmergency : Controller :=
  after (start contextNoDirectory) engineNewNoDirectory.

Definition engineDisabled : Controller :=
  after (start contextOk) engineNewDisabled.

End Updates.

(* ===================================================================== *)
(** ** Part IV.  Properties of [normalizeParams] and [Statement]          *)
(* ===================================================================== *)

Section SqliteProperties.
Import Sqlite.

Lemma normalizeParams_variadic (args : list JSValue) :
  1 < length args ->
  normalizeParams args = {| params := JSArray args; shouldPassAsObject := false |}.
Proof.
  intros Hlen. unfold normalizeParams.
  destruct (decide (1 < length args)) as [_|Hn]; [|contradiction].
  reflexivity.
Qed.

Lemma normalizeParams_single (v : JSValue) :
  normalizeParams [v] =
    if decide (typeof v ≠ "object")
    then {| params := JSArray [v]; shouldPassAsObject := false |}
    else {| params := v; shouldPassAsObject := negb (isArray v) |}.
Proof.
  unfold normalizeParams. cbn [length index0].
  destruct (decide (1 < 1)) as [Hlt|_]; [lia|].
  destruct (decide (typeof v ≠ "object")); reflexivity.
Qed.

Lemma normalizeParams_array (elements : list JSValue) :
  normalizeParams [JSArray elements] =
    {| params := JSArray elements; shouldPassAsObject := false |}.
Proof. rewrite normalizeParams_single. reflexivity. Qed.

Lemma normalizeParams_scalar (v : JSValue) :
  typeof v ≠ "object" ->
  normalizeParams [v] = {| params := JSArray [v]; shouldPassAsObject := false |}.
Proof.
  intros Hv. rewrite normalizeParams_single.
  destruct (decide (typeof v ≠ "object")); [reflexivity|contradiction].
Qed.

Lemma normalizeParams_object (v : JSValue) :
  typeof v = "object" -> isArray v = false ->
  normalizeParams [v] = {| params := v; shouldPassAsObject := true |}.
Proof.
  intros Hv Harr. rewrite normalizeParams_single.
  destruct (decide (typeof v ≠ "object")) as [Hn|_]; [contradiction|].
  rewrite Harr. reflexivity.
Qed.

Lemma normalizeParams_no_argument :
  normalizeParams [] =
    {| params := JSArray [JSUndefined]; shouldPassAsObject := false |}.
Proof. reflexivity. Qed.

Lemma shouldPassAsObject_spec (args : list JSValue) :
  shouldPassAsObject (normalizeParams args) = singleNonArrayObject args.
Proof.
  destruct args as [|v [|w rest]].
  - reflexivity.
  - rewrite normalizeParams_single. cbn [singleNonArrayObject].
    destruct (decide (typeof v ≠ "object")) as [Hn|Hy].
    + rewrite bool_decide_eq_false_2 by exact Hn. reflexivity.
    + rewrite bool_decide_eq_true_2 by (destruct (decide (typeof v = "object")); tauto).
      reflexivity.
  - rewrite normalizeParams_variadic by (cbn; lia). reflexivity.
Qed.

Lemma dispatch_spec (objectMethod arrayMethod : NativeMethod)
    (args : list JSValue) :
  dispatch objectMethod arrayMethod args =
    if singleNonArrayObject args then objectMethod else arrayMethod.
Proof. unfold dispatch. rewrite shouldPassAsObject_spec. reflexivity. Qed.

(** The object [null] and a typed array are passed on as they are, to the
    object-binding call: [typeof] says ["object"] for both. *)
Example normalizeParams_null :
  normalizeParams [JSNull] = {| params := JSNull; shouldPassAsObject := true |}
  /\ normalizeParams [JSUint8Array [1%Z; 2%Z]] =
       {| params := JSUint8Array [1%Z; 2%Z]; shouldPassAsObject := true |}.
Proof. split; apply normalizeParams_object; reflexivity. Qed.

Example normalizeParams_examples :
  normalizeParams [JSNumber 1; JSString "Hello"] =
    {| params := JSArray [JSNumber 1; JSString "Hello"];
       shouldPassAsObject := false |}
  /\ normalizeParams [JSArray [JSNumber 1; JSString "Hello"]] =
       {| params := JSArray [JSNumber 1; JSString "Hello"];
          shouldPassAsObject := false |}
  /\ normalizeParams [JSObject [("$action", JSString "Hello")]] =
       {| params := JSObject [("$action", JSString "Hello")];
          shouldPassAsObject := true |}
  /\ normalizeParams [JSString "Hello"] =
       {| params := JSArray [JSString "Hello"]; shouldPassAsObject := false |}.
Proof. repeat split; vm_compute; reflexivity. Qed.

(** The values whose [typeof] is ["object"]: arrays, typed arrays, plain
    objects, and the one scalar [null]. *)
Lemma typeof_object (v : JSValue) :
  typeof v = "object" <->
  v = JSNull
  \/ (exists elements, v = JSArray elements)
  \/ (exists bytes, v = JSUint8Array bytes)
  \/ (exists properties, v = JSObject properties).
Proof.
  split.
  - destruct v; cbn [typeof]; intros H; try discriminate H; eauto.
  - intros [-> | [[elements ->] | [[bytes ->] | [properties ->]]]]; reflexivity.
Qed.

(** The scalar [null] as the only argument: line 282 does not wrap it,
    since [typeof null] is ["object"], and line 285 then sets
    [shouldPassAsObject]; every method of [Statement] makes its
    object-binding call with [null] as the bind parameters. *)
Lemma normalizeParams_null_argument :
  normalizeParams [JSNull] = {| params := JSNull; shouldPassAsObject := true |}
  /\ normalizeParams [JSNull] <>
       {| params := JSArray [JSNull]; shouldPassAsObject := false |}
  /\ (forall objectMethod arrayMethod,
        dispatch objectMethod arrayMethod [JSNull] = objectMethod).
Proof.
  split; [reflexivity|]. split; [discriminate|].
  intros objectMethod arrayMethod. reflexivity.
Qed.

(** C10.  [normalizeParams] classifies every argument list: two or more
    arguments, or one array, come back as that array with
    [shouldPassAsObject] false; one argument whose [typeof] is not
    ["object"] comes back as the one-element array holding it, again with
    false; one argument whose [typeof] is ["object"] and that is not an
    array comes back unchanged with [shouldPassAsObject] true.  Hence
    each of [runAsync], [getAsync], [allAsync], [eachAsync], [runSync],
    [getSync], [allSync] and [eachSync] makes its object-binding native
    call exactly for an argument list that is one value of [typeof]
    ["object"] other than an array, and its array-binding call
    otherwise.  The values of [typeof] ["object"] are the arrays, the
    typed arrays, the plain objects and [null]: for the single scalar
    [null] the code departs from the claim, it returns [null] unwrapped
    with [shouldPassAsObject] true, not the one-element array holding it,
    and every method makes its object-binding call.  Every other single
    scalar is wrapped, and every single typed array or plain object is
    passed on as an object. *)
Theorem normalizeParams_classifies :
  (forall args, 1 < length args ->
     normalizeParams args =
       {| params := JSArray args; shouldPassAsObject := false |})
  /\ (forall elements,
        normalizeParams [JSArray elements] =
          {| params := JSArray elements; shouldPassAsObject := false |})
  /\ (forall v, typeof v ≠ "object" ->
        normalizeParams [v] =
          {| params := JSArray [v]; shouldPassAsObject := false |})
  /\ (forall v, typeof v = "object" -> isArray v = false ->
        normalizeParams [v] = {| params := v; shouldPassAsObject := true |})
  /\ (forall args,
        shouldPassAsObject (normalizeParams args) = true <->
        exists v, args = [v] /\ typeof v = "object" /\ isArray v = false)
  /\ (forall (NativeState : Type)
             (native : NativeMethod -> JSValue -> NativeState ->
                       JSValue * NativeState)
             (args : list JSValue) (fuel : nat) (s : NativeState),
        let p := params (normalizeParams args) in
        let pick o a := if singleNonArrayObject args then o else a in
        runAsync NativeState native args s =
          native (pick objectRunAsync arrayRunAsync) p s
        /\ getAsync NativeState native args s =
             (orNull (native (pick objectGetAsync arrayGetAsync) p s).1,
              (native (pick objectGetAsync arrayGetAsync) p s).2)
        /\ allAsync NativeState native args s =
             native (pick objectGetAllAsync arrayGetAllAsync) p s
        /\ eachAsync NativeState native args fuel s =
             eachLoop NativeState native (pick objectGetAsync arrayGetAsync) p fuel s
        /\ runSync NativeState native args s =
             native (pick objectRunSync arrayRunSync) p s
        /\ getSync NativeState native args s =
             (orNull (native (pick objectGetSync arrayGetSync) p s).1,
              (native (pick objectGetSync arrayGetSync) p s).2)
        /\ allSync NativeState native args s =
             native (pick objectGetAllSync arrayGetAllSync) p s
        /\ eachSync NativeState native args fuel s =
             eachLoop NativeState native (pick objectGetSync arrayGetSync) p fuel s)
  /\ (forall v,
        typeof v = "object" <->
        v = JSNull
        \/ (exists elements, v = JSArray elements)
        \/ (exists bytes, v = JSUint8Array bytes)
        \/ (exists properties, v = JSObject properties))
  /\ normalizeParams [JSNull] = {| params := JSNull; shouldPassAsObject := true |}
  /\ normalizeParams [JSNull] <>
       {| params := JSArray [JSNull]; shouldPassAsObject := false |}
  /\ (forall objectMethod arrayMethod,
        dispatch objectMethod arrayMethod [JSNull] = objectMethod)
  /\ (forall v,
        v <> JSNull ->
        (forall elements, v <> JSArray elements) ->
        (forall bytes, v <> JSUint8Array bytes) ->
        (forall properties, v <> JSObject properties) ->
        normalizeParams [v] =
          {| params := JSArray [v]; shouldPassAsObject := false |})
  /\ (forall v,
        (exists bytes, v = JSUint8Array bytes)
        \/ (exists properties, v = JSObject properties) ->
        normalizeParams [v] = {| params := v; shouldPassAsObject := true |}).
Proof.
  split; [exact normalizeParams_variadic|].
  split; [exact normalizeParams_array|].
  split; [exact normalizeParams_scalar|].
  split; [exact normalizeParams_object|].
  split.
  - intros args. rewrite shouldPassAsObject_spec. split.
    + destruct args as [|v [|w rest]]; cbn [singleNonArrayObject]; try discriminate.
      intros H. apply andb_prop in H as [Ht Ha].
      exists v. split; [reflexivity|]. split.
      * apply bool_decide_eq_true_1 in Ht. exact Ht.
      * apply negb_true_iff in Ha. exact Ha.
    + intros (v & -> & Ht & Ha). cbn [singleNonArrayObject].
      rewrite bool_decide_eq_true_2 by exact Ht. rewrite Ha. reflexivity.
  - split.
    { intros NativeState native args fuel s p pick. subst p pick.
      unfold runAsync, getAsync, allAsync, eachAsync, runSync, getSync,
        allSync, eachSync.
      rewrite !dispatch_spec. repeat split; reflexivity. }
    split; [exact typeof_object|].
    destruct normalizeParams_null_argument as (Hnull & Hdiffers & Hdispatch).
    split; [exact Hnull|]. split; [exact Hdiffers|]. split; [exact Hdispatch|].
    split.
    + intros v Hnotnull Hnotarray Hnottyped Hnotplain.
      apply normalizeParams_scalar. intros Hobject.
      apply typeof_object in Hobject
        as [-> | [[elements ->] | [[bytes ->] | [properties ->]]]].
      * apply Hnotnull. reflexivity.
      * apply (Hnotarray elements). reflexivity.
      * apply (Hnottyped bytes). reflexivity.
      * apply (Hnotplain properties). reflexivity.
    + intros v [[bytes ->] | [properties ->]];
        apply normalizeParams_object; reflexivity.
Qed.

(** *** Further properties of [normalizeParams] and of the generators *)

(** X1.  What [normalizeParams] hands on is always of type ["object"], and it
    is an array exactly when [shouldPassAsObject] is false: an
    array-binding native call never receives a non-array. *)
Theorem normalizeParams_result_shape (args : list JSValue) :
  typeof (params (normalizeParams args)) = "object"
  /\ isArray (params (normalizeParams args)) =
       negb (shouldPassAsObject (normalizeParams args)).
Proof.
  destruct args as [|v [|w rest]].
  - split; reflexivity.
  - rewrite normalizeParams_single.
    destruct (decide (typeof v ≠ "object")) as [Hn|Hy]; cbn [params shouldPassAsObject].
    + split; reflexivity.
    + split; [|symmetry; apply negb_involutive].
      destruct (decide (typeof v = "object")) as [He|Hne]; [exact He|].
      contradiction.
  - rewrite normalizeParams_variadic by (cbn; lia). split; reflexivity.
Qed.

(** X2.  Normalizing is idempotent: the normalized parameters, passed again as
    the single argument, come back unchanged with the same flag. *)
Theorem normalizeParams_idempotent (args : list JSValue) :
  normalizeParams [params (normalizeParams args)] = normalizeParams args.
Proof.
  destruct (normalizeParams_result_shape args) as [Htype Harr].
  rewrite normalizeParams_single.
  destruct (decide (typeof (params (normalizeParams args)) ≠ "object")) as [Hn|_];
    [contradiction|].
  rewrite Harr, negb_involutive. destruct (normalizeParams args); reflexivity.
Qed.

Section Generators.
Variable NativeState : Type.
Variable native : NativeMethod -> JSValue -> NativeState -> JSValue * NativeState.

Lemma eachLoop_rows (func : NativeMethod) (bindParams : JSValue) (fuel : nat) :
  forall s,
    let r := eachLoop NativeState native func bindParams fuel s in
    let rows := r.1.1 in
    rows = map (fun k => nextResult NativeState native func bindParams k s)
               (seq 0 (length rows))
    /\ Forall (fun row => notNullish row = true) rows
    /\ (if r.1.2
        then notNullish
               (nextResult NativeState native func bindParams (length rows) s) = false
             /\ r.2 = afterCalls NativeState native func bindParams
                        (S (length rows)) s
        else length rows = fuel
             /\ r.2 = afterCalls NativeState native func bindParams fuel s).
Proof.
  induction fuel as [|fuel IH]; intros s; cbn [eachLoop].
  - cbn. split; [reflexivity|]. split; [constructor|]. split; reflexivity.
  - destruct (notNullish (native func bindParams s).1) eqn:Hrow.
    + specialize (IH (native func bindParams s).2).
      cbv zeta in IH. destruct IH as (Hrows & Hall & Hend).
      destruct (eachLoop NativeState native func bindParams fuel
                  (native func bindParams s).2) as [[rows finished] s'].
      cbn [fst snd] in *. cbn [length seq map]. split.
      * f_equal. rewrite <- seq_shift, map_map. exact Hrows.
      * split; [constructor; assumption|].
        destruct finished.
        -- exact Hend.
        -- destruct Hend as [Hlen Hs]. split; [f_equal; exact Hlen|exact Hs].
    + cbn. split; [reflexivity|]. split; [constructor|].
      split; [exact Hrow|reflexivity].
Qed.

Lemma eachLoop_finishes (func : NativeMethod) (bindParams : JSValue) (n : nat) :
  forall fuel s,
    notNullish (nextResult NativeState native func bindParams n s) = false ->
    n < fuel ->
    (eachLoop NativeState native func bindParams fuel s).1.2 = true.
Proof.
  induction n as [|n IH]; intros fuel s Hnull Hfuel;
    (destruct fuel as [|fuel]; [lia|]); cbn [eachLoop].
  - unfold nextResult in Hnull. cbn [afterCalls] in Hnull.
    rewrite Hnull. reflexivity.
  - destruct (notNullish (native func bindParams s).1); [|reflexivity].
    cbn [fst snd]. apply IH; [exact Hnull|lia].
Qed.

(** X3.  [eachSync] and [eachAsync] yield exactly the values that the
    successive native get-calls return before the first [null] or
    [undefined], in that order; no yielded row is nullish; the generator
    is over after the one call that returned nullish, and it does get
    there whenever some call returns nullish. *)
Theorem each_yields_rows_until_null (args : list JSValue) (fuel : nat)
    (s : NativeState) :
  let p := params (normalizeParams args) in
  (let func := dispatch objectGetSync arrayGetSync args in
   let r := eachSync NativeState native args fuel s in
   r.1.1 = map (fun k => nextResult NativeState native func p k s)
               (seq 0 (length r.1.1))
   /\ Forall (fun row => notNullish row = true) r.1.1
   /\ (r.1.2 = true ->
       notNullish (nextResult NativeState native func p (length r.1.1) s) = false
       /\ r.2 = afterCalls NativeState native func p (S (length r.1.1)) s)
   /\ (forall n, notNullish (nextResult NativeState native func p n s) = false ->
                 n < fuel -> r.1.2 = true))
  /\ (let func := dispatch objectGetAsync arrayGetAsync args in
      let r := eachAsync NativeState native args fuel s in
      r.1.1 = map (fun k => nextResult NativeState native func p k s)
                  (seq 0 (length r.1.1))
      /\ Forall (fun row => notNullish row = true) r.1.1
      /\ (r.1.2 = true ->
          notNullish (nextResult NativeState native func p (length r.1.1) s) = false
          /\ r.2 = afterCalls NativeState native func p (S (length r.1.1)) s)
      /\ (forall n, notNullish (nextResult NativeState native func p n s) = false ->
                    n < fuel -> r.1.2 = true)).
Proof.
  intros p. split; intros func r; subst r; unfold eachSync, eachAsync;
    fold p; fold func;
    pose proof (eachLoop_rows func p fuel s) as H; cbv zeta in H;
    destruct H as (Hrows & Hall & Hend);
    (split; [exact Hrows|]); (split; [exact Hall|]);
    (split; [intros Hdone; rewrite Hdone in Hend; exact Hend|]);
    intros n Hnull Hfuel; eapply eachLoop_finishes; eassumption.
Qed.

End Generators.

(** A native statement with three rows left: the counter is the cursor. *)
Example eachSync_three_rows :
  let native (_ : NativeMethod) (_ : JSValue) (cursor : nat) :=
    (if decide (cursor < 3) then JSNumber (Z.of_nat cursor) else JSUndefined,
     S cursor) in
  eachSync nat native [JSString "a"; JSString "b"] 10 0 =
    ([JSNumber 0; JSNumber 1; JSNumber 2], true, 4).
Proof. cbv zeta. vm_compute. reflexivity. Qed.

End SqliteProperties.

(* ===================================================================== *)
(** ** Part V.  Properties of [AppLauncherNoDatabase]                     *)
(* ===================================================================== *)

Section NoDatabaseProperties.
Import NoDatabase.
Context {Update UpdatesConfig URL AssetFiles : Type}.
Variable embeddedManifest : UpdatesConfig -> option Update.
Variable embeddedBundleUrl : option URL.

Abbreviation launcherT := (AppLauncherNoDatabase Update URL AssetFiles).

(** [launchUpdate] never assigns [assetFilesMap], and does not trap while
    it is [nil]. *)
Lemma launchUpdate_keeps_assetFilesMap (config : UpdatesConfig) (l : launcherT) :
  assetFilesMap l = None ->
  exists l', launchUpdate embeddedManifest embeddedBundleUrl config l = Some l'
             /\ assetFilesMap l' = None.
Proof.
  intros Hnil. unfold launchUpdate. cbn.
  destruct (embeddedManifest config) as [u|].
  - rewrite Hnil. eexists. split; [reflexivity|]. reflexivity.
  - eexists. split; [reflexivity|]. exact Hnil.
Qed.

Lemma launchAll_keeps_assetFilesMap (configs : list UpdatesConfig) :
  forall l : launcherT,
    assetFilesMap l = None ->
    exists l', launchAll embeddedManifest embeddedBundleUrl configs l = Some l'
               /\ assetFilesMap l' = None.
Proof.
  induction configs as [|config rest IH]; intros l Hnil.
  - exists l. split; [reflexivity|exact Hnil].
  - destruct (launchUpdate_keeps_assetFilesMap config l Hnil) as (l1 & Hrun & Hnil1).
    cbn [launchAll]. rewrite Hrun. apply IH. exact Hnil1.
Qed.

(** From [init()], through any calls of [launchUpdate], the launcher
    reports embedded assets. *)
Lemma emergency_launcher_uses_embedded_assets (configs : list UpdatesConfig) :
  exists l : launcherT,
    launchAll embeddedManifest embeddedBundleUrl configs init = Some l
    /\ isUsingEmbeddedAssets l = true.
Proof.
  destruct (launchAll_keeps_assetFilesMap configs init eq_refl) as (l & Hrun & Hnil).
  exists l. split; [exact Hrun|].
  unfold isUsingEmbeddedAssets. rewrite Hnil. reflexivity.
Qed.

(** X4.  [launchUpdate] traps exactly when the configuration has an embedded
    manifest while [assetFilesMap] is set; otherwise it stores that
    manifest as [launchedUpdate], sets [launchAssetUrl] to the embedded
    bundle when there is a manifest and leaves it as it was (possibly
    stale) when there is none, and never touches [assetFilesMap]. *)
Theorem launchUpdate_outcome (config : UpdatesConfig) (l : launcherT) :
  match launchUpdate embeddedManifest embeddedBundleUrl config l with
  | None => embeddedManifest config <> None /\ assetFilesMap l <> None
  | Some l' =>
      launchedUpdate l' = embeddedManifest config
      /\ assetFilesMap l' = assetFilesMap l
      /\ launchAssetUrl l' =
           match embeddedManifest config with
           | Some _ => embeddedBundleUrl
           | None => launchAssetUrl l
           end
      /\ (embeddedManifest config = None \/ assetFilesMap l = None)
  end.
Proof.
  unfold launchUpdate. cbn [launchedUpdate assetFilesMap launchAssetUrl].
  destruct (embeddedManifest config) as [u|].
  - destruct (assetFilesMap l) as [files|] eqn:Hfiles.
    + split; discriminate.
    + cbn [launchedUpdate assetFilesMap launchAssetUrl].
      split; [reflexivity|]. split; [reflexivity|]. split; [reflexivity|].
      right. reflexivity.
  - cbn [launchedUpdate assetFilesMap launchAssetUrl].
    split; [reflexivity|]. split; [reflexivity|]. split; [reflexivity|].
    left. reflexivity.
Qed.

End NoDatabaseProperties.

(* ===================================================================== *)
(** ** Part VI.  Properties of [UpdatesController]                        *)
(* ===================================================================== *)

Import Updates.
Local Open Scope controller_scope.

(** Computing a method down to the state it leaves: only the methods, the
    field assignments and the projections are unfolded, so the trace stays
    a chain of [++]. *)
Ltac run :=
  lazy beta iota zeta delta
    [after start notifyController loaderTask_onFailure
     loaderTask_onSuccess loaderTask_onRemoteUpdateManifestResponseManifestLoaded
     setLauncher initializeDatabaseHandler
     markFailedLaunchForLaunchedUpdate markSuccessfulLaunchForLaunchedUpdate
     post handlerRunNext runPostedTask markStep perform
     checkForUpdate checkForUpdate_task checkForUpdate_onSuccess
     checkForUpdate_onFailure checkForUpdate_shouldLaunch callback
     getExtraParams setExtraParam invoke tryCatch
     getDatabase releaseDatabase processEvent emit modify get throw ret
     bind log set_launcher set_database set_databaseHandler set_isStarted
     set_loaderTask set_remoteLoadStatus set_isLoaderTaskFinished
     set_isEmergencyLaunch set_trace
     updatesConfiguration updatesDirectory updatesDirectoryException launcher
     database databaseHandler isStarted loaderTask remoteLoadStatus
     mSelectionPolicy defaultSelectionPolicy isLoaderTaskFinished
     isEmergencyLaunch trace
     isEnabled updateUrl scopeKey hasEmbeddedUpdate
     responseHeaderData manifestUpdateResponsePart directiveUpdateResponsePart
     manifestFilters updateEntity rawJson
     Launcher.launchedUpdate Launcher.launchAssetFile
     launchedUpdate selectionPolicy responseFilters loadUpdateWithId
     embeddedUpdateOf launcherLaunchAssetFile
     negb andb fst snd] in *.

(** A term that is not and does not contain a [match]. *)
Ltac plain x :=
  lazymatch x with
  | context [match _ with _ => _ end] => fail
  | _ => idtac
  end.

(** Destructs one thing the goal still branches on: a plain scrutinee. *)
Ltac branch_step :=
  match goal with
  | |- context [match ?x with _ => _ end] => plain x; destruct x eqn:?
  end.

Ltac crunch := run; repeat (branch_step; run).

(** *** [start] *)

Lemma start_sets_isStarted (context : Context) (c : Controller) :
  isStarted (after (start context) c) = true.
Proof.
  destruct c as [cfg dir dirE l db h started lt rls msp dsp fin em tr].
  destruct started; [reflexivity|].
  destruct cfg as [[|] [url|] [key|] emb], dir, h; run; reflexivity.
Qed.

(** C6.  [start] is idempotent: on an engine that has been started, a call
    of [start] returns at once and leaves every field of the controller
    and the trace as they were, so no [LoaderTask] is created or started
    and the launcher, the configuration, the events sent to the state
    machine and [isEmergencyLaunch] are unchanged. *)
Theorem start_idempotent (context : Context) (c : Controller) :
  isStarted c = true ->
  start context c = (Returned tt, c).
Proof.
  intros Hstarted. unfold start, bind, get, ret. rewrite Hstarted. reflexivity.
Qed.

(** A second [start] right after the first one, whatever the first did. *)
Lemma start_twice (context context' : Context) (c : Controller) :
  start context' (after (start context) c) =
    (Returned tt, after (start context) c).
Proof.
  unfold start at 1, bind, get, ret.
  rewrite start_sets_isStarted. reflexivity.
Qed.

(** The engine of the examples after a regular [start]. *)
Lemma start_idempotent_witness :
  let c := engineStarted in
  isStarted c = true
  /\ loaderTask c = Some {| isRunning := true |}
  /\ start contextOk c = (Returned tt, c).
Proof.
  cbv zeta. split; [reflexivity|]. split; [reflexivity|].
  apply (start_idempotent contextOk). reflexivity.
Defined.

(** The two paths of [start] that install the no-database launcher. *)
Lemma start_no_directory (context : Context) (c : Controller) (url key : string) :
  isStarted c = false ->
  isEnabled (updatesConfiguration c) = true ->
  updateUrl (updatesConfiguration c) = Some url ->
  scopeKey (updatesConfiguration c) = Some key ->
  updatesDirectory c = None ->
  start context c =
    (Returned tt,
     log EvNotify
       (set_isLoaderTaskFinished true
          (set_isEmergencyLaunch true
             (set_launcher (Some (NoDatabaseLauncher (updatesDirectoryException c)))
                (set_isStarted true c))))).
Proof.
  destruct c as [[enabled url0 key0 emb] dir dirE l db h started lt rls msp dsp fin em tr].
  run. intros -> -> -> -> ->. reflexivity.
Qed.

Lemma start_disabled (context : Context) (c : Controller) :
  isStarted c = false ->
  isEnabled (updatesConfiguration c) = false ->
  start context c =
    (Returned tt,
     log EvNotify
       (set_isLoaderTaskFinished true
          (set_launcher (Some (NoDatabaseLauncher None))
             (set_isStarted true c)))).
Proof.
  destruct c as [[enabled url0 key0 emb] dir dirE l db h started lt rls msp dsp fin em tr].
  run. intros -> ->. reflexivity.
Qed.

(** With [isLoaderTaskFinished] set, [launchAssetFile] returns without
    calling [wait()]: the state and the schedule are untouched. *)
Lemma launchAssetFile_finished (schedule : list Tick) (c : Controller) :
  isLoaderTaskFinished c = true ->
  launchAssetFile schedule c =
    AssetFileReturned (launcherLaunchAssetFile c) c schedule.
Proof. intros Hfin. unfold launchAssetFile. rewrite Hfin. reflexivity. Qed.

(** C7.  When the updates directory could not be created
    ([updatesDirectory] is null) and updates are enabled with an update
    URL and a scope key, [start] returns without throwing; it sets
    [isEmergencyLaunch], installs the no-database launcher and sets
    [isLoaderTaskFinished] with a [notify], and does nothing else: the
    database is neither leased nor changed.  [launchAssetFile] then
    returns at once, with null, and [bundleAssetName] names the embedded
    bundle.  The emergency launcher reports [isUsingEmbeddedAssets] as
    true, on the controller and, for [AppLauncherNoDatabase], after
    [init()] and any sequence of [launchUpdate] calls. *)
Theorem start_emergency_launch (context : Context) (c : Controller)
    (url key : string) :
  isStarted c = false ->
  isEnabled (updatesConfiguration c) = true ->
  updateUrl (updatesConfiguration c) = Some url ->
  scopeKey (updatesConfiguration c) = Some key ->
  updatesDirectory c = None ->
  let c' := after (start context) c in
  (start context c).1 = Returned tt
  /\ isEmergencyLaunch c' = true
  /\ launcher c' = Some (NoDatabaseLauncher (updatesDirectoryException c))
  /\ isLoaderTaskFinished c' = true
  /\ added c c' = [EvNotify]
  /\ database c' = database c
  /\ loaderTask c' = loaderTask c
  /\ (forall schedule,
        launchAssetFile schedule c' = AssetFileReturned None c' schedule)
  /\ bundleAssetName c' = Some BARE_BUNDLE_FILENAME
  /\ isUsingEmbeddedAssets c' = true
  /\ (forall (Update UpdatesConfig URL AssetFiles : Type)
             (manifestOfConfig : UpdatesConfig -> option Update)
             (bundleUrl : option URL) (configs : list UpdatesConfig),
        exists l : NoDatabase.AppLauncherNoDatabase Update URL AssetFiles,
          NoDatabase.launchAll manifestOfConfig bundleUrl configs
            NoDatabase.init = Some l
          /\ NoDatabase.isUsingEmbeddedAssets l = true).
Proof.
  intros Hstarted Henabled Hurl Hkey Hdir c'. subst c'. unfold after.
  rewrite (start_no_directory context c url key) by assumption.
  cbn [fst snd].
  split; [reflexivity|]. split; [reflexivity|]. split; [reflexivity|].
  split; [reflexivity|].
  split.
  { unfold added. cbn [trace log set_trace]. rewrite drop_app_length.
    reflexivity. }
  split; [reflexivity|]. split; [reflexivity|].
  split.
  { intros schedule. rewrite launchAssetFile_finished by reflexivity.
    reflexivity. }
  split; [reflexivity|]. split; [reflexivity|].
  intros Update UpdatesConfig URL AssetFiles manifestOfConfig bundleUrl configs.
  apply emergency_launcher_uses_embedded_assets.
Qed.

(** The controller built where the directory cannot be created. *)
Lemma start_emergency_launch_witness :
  let c := engineNewNoDirectory in
  updatesDirectoryException c = Some "mkdirs failed"
  /\ (start contextNoDirectory c).1 = Returned tt
  /\ isEmergencyLaunch (after (start contextNoDirectory) c) = true
  /\ launchAssetFile [] (after (start contextNoDirectory) c) =
       AssetFileReturned None (after (start contextNoDirectory) c) [].
Proof.
  cbv zeta. split; [reflexivity|].
  pose proof (start_emergency_launch contextNoDirectory engineNewNoDirectory
                "https://u.expo.dev/app" "app"
                eq_refl eq_refl eq_refl eq_refl eq_refl) as H.
  cbv zeta in H.
  destruct H as (Hret & Hem & _ & _ & _ & _ & _ & Hasset & _).
  split; [exact Hret|]. split; [exact Hem|]. apply Hasset.
Defined.

(** *** Only [notifyController] sets [isLoaderTaskFinished] *)

Lemma continues_refl (c : Controller) : continues c c.
Proof.
  exists []. split.
  - symmetry. apply app_nil_r.
  - cbn. symmetry. apply orb_false_r.
Qed.

Lemma continues_trans (c1 c2 c3 : Controller) :
  continues c1 c2 -> continues c2 c3 -> continues c1 c3.
Proof.
  intros (t1 & Ht1 & Hf1) (t2 & Ht2 & Hf2).
  exists (t1 ++ t2). split.
  - rewrite Ht2, Ht1. symmetry. apply app_assoc.
  - rewrite Hf2, Hf1, existsb_app. symmetry. apply orb_assoc.
Qed.

Lemma steady_ret {A : Type} (a : A) : steady (ret a).
Proof. intros c. apply continues_refl. Qed.

Lemma steady_throw {A : Type} (t : Throwable) : steady (@throw A t).
Proof. intros c. apply continues_refl. Qed.

Lemma steady_get : steady get.
Proof. intros c. apply continues_refl. Qed.

Lemma steady_bind {A B : Type} (m : M A) (k : A -> M B) :
  steady m -> (forall a, steady (k a)) -> steady (bind m k).
Proof.
  intros Hm Hk c. unfold bind. specialize (Hm c).
  destruct (m c) as [[a|t] c1]; cbn in *.
  - eapply continues_trans; [exact Hm|]. apply Hk.
  - exact Hm.
Qed.

Lemma steady_tryCatch {A : Type} (body : M A) (handler : Exception -> M A) :
  steady body -> (forall e, steady (handler e)) -> steady (tryCatch body handler).
Proof.
  intros Hb Hh c. unfold tryCatch. specialize (Hb c).
  destruct (body c) as [[a|[e|msg|prop]] c1]; cbn in *; try exact Hb.
  eapply continues_trans; [exact Hb|]. apply Hh.
Qed.

Lemma steady_modify (f : Controller -> Controller) :
  (forall c, trace (f c) = trace c) ->
  (forall c, isLoaderTaskFinished (f c) = isLoaderTaskFinished c) ->
  steady (modify f).
Proof.
  intros Ht Hf c. cbn. exists []. split.
  - rewrite Ht. symmetry. apply app_nil_r.
  - rewrite Hf. cbn. symmetry. apply orb_false_r.
Qed.

Lemma steady_emit (e : Effect) : isNotify e = false -> steady (emit e).
Proof.
  intros He c. cbn. exists [e]. split; [reflexivity|].
  cbn. rewrite He. cbn. symmetry. apply orb_false_r.
Qed.

Lemma steady_notifyController : steady notifyController.
Proof.
  intros c. destruct c as [cfg dir dirE l db h started lt rls msp dsp fin em tr].
  destruct l as [l|]; run.
  - exists [EvNotify]. split; [reflexivity|]. cbn. symmetry. apply orb_true_r.
  - apply continues_refl.
Qed.

(** Decomposes a method into the primitives above. *)
Ltac steady_step :=
  first
    [ apply steady_ret | apply steady_throw | apply steady_get
    | apply steady_notifyController
    | apply steady_emit; reflexivity
    | apply steady_modify; intros; reflexivity
    | apply steady_bind; [|intros]
    | apply steady_tryCatch; [|intros]
    | match goal with
      | |- steady (match ?x with _ => _ end) => destruct x
      | |- steady (if ?x then _ else _) => destruct x
      | |- steady (let '(_, _) := ?x in _) => destruct x
      end ].

Ltac steady_method := repeat steady_step.

Lemma steady_start (context : Context) : steady (start context).
Proof. unfold start, initializeDatabaseHandler, getDatabase, releaseDatabase. steady_method. Qed.

Lemma steady_loaderTask_onSuccess (l : Launcher.t) (isUpToDate : bool) :
  steady (loaderTask_onSuccess l isUpToDate).
Proof. unfold loaderTask_onSuccess. steady_method. Qed.

Lemma steady_loaderTask_onFailure (e : Exception) : steady (loaderTask_onFailure e).
Proof. unfold loaderTask_onFailure. steady_method. Qed.

Lemma steady_mark :
  steady markFailedLaunchForLaunchedUpdate
  /\ steady markSuccessfulLaunchForLaunchedUpdate
  /\ steady handlerRunNext.
Proof.
  unfold markFailedLaunchForLaunchedUpdate, markSuccessfulLaunchForLaunchedUpdate,
    handlerRunNext, runPostedTask, post, getDatabase, releaseDatabase.
  repeat split; steady_method.
Qed.

Lemma steady_checkForUpdate (context : Context) (download : RemoteUpdateDownload) :
  steady (checkForUpdate context download).
Proof.
  unfold checkForUpdate, checkForUpdate_task, checkForUpdate_onSuccess,
    checkForUpdate_onFailure, checkForUpdate_shouldLaunch, callback,
    processEvent, getDatabase, releaseDatabase.
  steady_method.
Qed.

Lemma steady_extraParams :
  (forall metadata cb, steady (getExtraParams metadata cb))
  /\ (forall metadata key value cb, steady (setExtraParam metadata key value cb)).
Proof.
  unfold getExtraParams, setExtraParam, invoke, getDatabase, releaseDatabase.
  split; intros; steady_method.
Qed.

Lemma perform_continues (a : Action) (c : Controller) : continues c (perform a c).
Proof.
  destruct a; cbn [perform]; unfold after.
  - apply steady_start.
  - apply steady_loaderTask_onSuccess.
  - apply steady_loaderTask_onFailure.
  - apply steady_modify; intros; reflexivity.
  - apply steady_modify; intros; reflexivity.
  - apply steady_mark.
  - apply steady_mark.
  - apply steady_mark.
  - apply steady_checkForUpdate.
  - apply steady_extraParams.
  - apply steady_extraParams.
Qed.

(** *** [launchAssetFile] *)

Lemma waiting_continues (schedule : list Tick) :
  forall c,
    match waiting schedule c with
    | AssetFileReturned path c' rest =>
        isLoaderTaskFinished c' = true
        /\ path = launcherLaunchAssetFile c'
        /\ continues c c'
    | StillWaiting c' => continues c c'
    end.
Proof.
  induction schedule as [|[a|] rest IH]; intros c; cbn [waiting].
  - apply continues_refl.
  - specialize (IH (perform a c)).
    pose proof (perform_continues a c) as Hstep.
    destruct (waiting rest (perform a c)) as [path c' rest'|c'].
    + destruct IH as (Hfin & Hpath & Hcont).
      split; [exact Hfin|]. split; [exact Hpath|].
      eapply continues_trans; eassumption.
    + eapply continues_trans; eassumption.
  - destruct (isLoaderTaskFinished c) eqn:Hfin.
    + split; [exact Hfin|]. split; [reflexivity|]. apply continues_refl.
    + specialize (IH (log EvWait c)).
      assert (Hstep : continues c (log EvWait c))
        by (apply (steady_emit EvWait); reflexivity).
      destruct (waiting rest (log EvWait c)) as [path c' rest'|c'].
      * destruct IH as (Hfin' & Hpath & Hcont).
        split; [exact Hfin'|]. split; [exact Hpath|].
        eapply continues_trans; eassumption.
      * eapply continues_trans; eassumption.
Qed.

(** A caller blocked in [wait()] returns once the loader task has
    delivered a launcher and the caller is woken. *)
Lemma launchAssetFile_woken_by_loader_task (l : Launcher.t) (isUpToDate : bool)
    (rest : list Tick) (c : Controller) :
  isLoaderTaskFinished c = false ->
  exists c',
    launchAssetFile (Other (ActLoaderTaskOnSuccess l isUpToDate) :: Wake :: rest) c =
      AssetFileReturned (Launcher.launchAssetFile l) c' rest
    /\ launcher c' = Some l.
Proof.
  destruct c as [cfg dir dirE l0 db h started lt rls msp dsp fin em tr].
  cbn [isLoaderTaskFinished]. intros ->.
  unfold launchAssetFile. cbn [isLoaderTaskFinished waiting].
  destruct rls, isUpToDate; run; eexists; split; reflexivity.
Qed.

(** Woken without the flag, the caller waits again. *)
Lemma launchAssetFile_spurious_wakeups (n : nat) (c : Controller) :
  isLoaderTaskFinished c = false ->
  exists c', launchAssetFile (replicate n Wake) c = StillWaiting c'
             /\ isLoaderTaskFinished c' = false.
Proof.
  intros Hfin. unfold launchAssetFile. rewrite Hfin.
  assert (Hgen : forall c0, isLoaderTaskFinished c0 = false ->
            exists c', waiting (replicate n Wake) c0 = StillWaiting c'
                       /\ isLoaderTaskFinished c' = false).
  { induction n as [|n IH]; intros c0 H0; cbn [replicate waiting].
    - exists c0. split; [reflexivity|exact H0].
    - rewrite H0. apply IH. exact H0. }
  apply Hgen. exact Hfin.
Qed.

(** C1, as amended.  A call of [launchAssetFile] does not return before
    [isLoaderTaskFinished] is set, and the flag is set by
    [notifyController] only: when the call found it unset, a [notify] was
    logged between the call and the return.  The value returned is the
    launch asset path of the launcher installed at the return.  It is null
    whenever that launcher is the no-database launcher, which [start]
    installs in the emergency-launch case and, without setting
    [isEmergencyLaunch], when updates are disabled.  With
    [isLoaderTaskFinished] already set the call returns at once, without
    calling [wait()]. *)
Theorem launchAssetFile_returns_after_notify (schedule : list Tick)
    (c : Controller) :
  match launchAssetFile schedule c with
  | AssetFileReturned path c' rest =>
      isLoaderTaskFinished c' = true
      /\ path = launcherLaunchAssetFile c'
      /\ (forall e, launcher c' = Some (NoDatabaseLauncher e) -> path = None)
      /\ (exists t, trace c' = trace c ++ t
             /\ (isLoaderTaskFinished c = false -> existsb isNotify t = true))
      /\ (isLoaderTaskFinished c = true -> c' = c /\ rest = schedule)
  | StillWaiting _ => isLoaderTaskFinished c = false
  end
  /\ (forall context url key,
        isStarted c = false ->
        isEnabled (updatesConfiguration c) = true ->
        updateUrl (updatesConfiguration c) = Some url ->
        scopeKey (updatesConfiguration c) = Some key ->
        updatesDirectory c = None ->
        isEmergencyLaunch (after (start context) c) = true
        /\ launchAssetFile schedule (after (start context) c) =
             AssetFileReturned None (after (start context) c) schedule)
  /\ (forall context,
        isStarted c = false ->
        isEnabled (updatesConfiguration c) = false ->
        isEmergencyLaunch (after (start context) c) = isEmergencyLaunch c
        /\ launchAssetFile schedule (after (start context) c) =
             AssetFileReturned None (after (start context) c) schedule).
Proof.
  split; [|split].
  - unfold launchAssetFile. destruct (isLoaderTaskFinished c) eqn:Hfin.
    + split; [exact Hfin|]. split; [reflexivity|]. split.
      * intros e He. unfold launcherLaunchAssetFile. rewrite He. reflexivity.
      * split; [|intros _; split; reflexivity].
        exists []. split; [symmetry; apply app_nil_r|discriminate].
    + pose proof (waiting_continues schedule (log EvWait c)) as Hrun.
      destruct (waiting schedule (log EvWait c)) as [path c' rest|c'];
        [|reflexivity].
      destruct Hrun as (Hfin' & Hpath & Hcont).
      split; [exact Hfin'|]. split; [exact Hpath|]. split.
      * intros e He. rewrite Hpath. unfold launcherLaunchAssetFile.
        rewrite He. reflexivity.
      * split; [|discriminate].
        assert (Hc : continues c c').
        { eapply continues_trans; [|exact Hcont].
          apply (steady_emit EvWait); reflexivity. }
        destruct Hc as (t & Ht & Hflag). exists t. split; [exact Ht|].
        intros _. rewrite Hfin', Hfin in Hflag. symmetry. exact Hflag.
  - intros context url key Hs He Hu Hk Hd. unfold after.
    rewrite (start_no_directory context c url key) by assumption.
    split; [reflexivity|].
    rewrite launchAssetFile_finished by reflexivity. reflexivity.
  - intros context Hs He. unfold after.
    rewrite (start_disabled context c) by assumption.
    split; [reflexivity|].
    rewrite launchAssetFile_finished by reflexivity. reflexivity.
Qed.

(** C1 fails as stated: the path is null although this is no emergency
    launch.  The engine is built with updates disabled and started:
    [start] installs the no-database launcher and notifies, so
    [launchAssetFile] returns null at once, with [isEmergencyLaunch]
    false. *)
Lemma launchAssetFile_null_without_emergency :
  let c := engineDisabled in
  isStarted c = true
  /\ isLoaderTaskFinished c = true
  /\ isEmergencyLaunch c = false
  /\ launchAssetFile [] c = AssetFileReturned None c [].
Proof. cbv zeta. repeat split; vm_compute; reflexivity. Qed.

(** The same without any launcher model: after [setLauncher(null)] (the
    [reset] of the development launcher) the path is null as well. *)
Lemma launchAssetFile_null_after_reset :
  let c := after (setLauncher None) engineLaunchedU2 in
  isEmergencyLaunch c = false
  /\ launchAssetFile [] c = AssetFileReturned None c [].
Proof. cbv zeta. split; vm_compute; reflexivity. Qed.

(** *** [checkForUpdate] *)

(** Reads the effects added to the trace [tr] of the start state. *)
Ltac read_added :=
  unfold added; run; rewrite <- ?app_assoc;
  rewrite ?drop_app_length; cbn [app].

(** [checkForUpdate] at a response with neither part: the callback gets
    its result, the state machine gets no terminal event and stays in
    [Checking]. *)
Lemma checkForUpdate_empty_response (context : Context) (c : Controller)
    (headers : option ResponseHeaderData) :
  let response :=
    {| responseHeaderData := headers;
       manifestUpdateResponsePart := None;
       directiveUpdateResponsePart := None |} in
  checkForUpdate context (DownloadSucceeded response) c =
    (Returned tt,
     set_trace
       (trace c ++ checkPrefix ++
          [EvCheckForUpdateCallback (NoUpdateAvailable NO_UPDATE_AVAILABLE_ON_SERVER)])
       c).
Proof.
  destruct c as [cfg dir dirE l db h started lt rls msp dsp fin em tr].
  cbv zeta. run. rewrite <- !app_assoc. reflexivity.
Qed.

(** C2, on the code.  A [checkForUpdate] delivers exactly one result to
    its callback on every path, but it does not process exactly one
    terminal event on every path: for a response without manifest and
    without roll-back directive it processes none (line 739 builds
    [CheckCompleteUnavailable] and drops it), so that the state machine
    of section 4.4 is left in [Checking]; on every other path it
    processes exactly one. *)
Theorem checkForUpdate_terminal_events :
  (forall context c headers,
     let response :=
       {| responseHeaderData := headers;
          manifestUpdateResponsePart := None;
          directiveUpdateResponsePart := None |} in
     let t := added c (after (checkForUpdate context (DownloadSucceeded response)) c) in
     t = checkPrefix ++
           [EvCheckForUpdateCallback (NoUpdateAvailable NO_UPDATE_AVAILABLE_ON_SERVER)]
     /\ count isTerminalCheckEvent t = 0
     /\ machineState Idle t = Checking)
  /\ (forall context c download,
        let t := added c (after (checkForUpdate context download) c) in
        length (callbacksOf t) = 1
        /\ count isTerminalCheckEvent t =
             if reachesLine739 download then 0 else 1).
Proof.
  split.
  - intros context c headers response t. subst t response. unfold after.
    rewrite checkForUpdate_empty_response. cbn [snd].
    unfold added. cbn [trace set_trace]. rewrite drop_app_length.
    repeat split; reflexivity.
  - intros context c download t. subst t.
    destruct c as [cfg dir dirE l db h started lt rls msp dsp fin em tr].
    destruct download as [message e|[headers [m|] [[|ct]|]]];
      cbn [reachesLine739 directiveUpdateResponsePart manifestUpdateResponsePart];
      unfold added; crunch; rewrite <- ?app_assoc; rewrite drop_app_length;
      split; reflexivity.
Qed.

(** C3.  For a response whose directive is [RollBackToEmbedded], the
    callback gets [RollBackToEmbedded(commitTime)] and the state machine
    [CheckCompleteWithRollback(commitTime)] exactly when the configuration
    has [hasEmbeddedUpdate], the embedded manifest gives an update, and
    [shouldLoadRollBackToEmbeddedDirective] admits the directive for that
    update, the launched update and the manifest filters of the response;
    otherwise the callback gets [NoUpdateAvailable] with one of the two
    roll-back reasons and the state machine [CheckCompleteUnavailable].
    The callback comes first, the event second, and nothing else follows. *)
Theorem checkForUpdate_rollback_directive (context : Context) (c : Controller)
    (headers : option ResponseHeaderData) (manifestPart : option UpdateManifest)
    (commitTime : Date) :
  let directive := RollBackToEmbeddedUpdateDirective commitTime in
  let response :=
    {| responseHeaderData := headers;
       manifestUpdateResponsePart := manifestPart;
       directiveUpdateResponsePart := Some directive |} in
  let admitted :=
    hasEmbeddedUpdate (updatesConfiguration c) &&
    match embeddedUpdateOf context c with
    | Some embedded =>
        shouldLoadRollBackToEmbeddedDirective (selectionPolicy c) directive
          embedded (launchedUpdate c) (responseFilters response)
    | None => false
    end in
  let t := added c (after (checkForUpdate context (DownloadSucceeded response)) c) in
  (checkForUpdate context (DownloadSucceeded response) c).1 = Returned tt
  /\ (admitted = true ->
        t = checkPrefix ++
              [EvCheckForUpdateCallback (RollBackToEmbedded commitTime);
               EvProcessEvent (CheckCompleteWithRollback commitTime)])
  /\ (admitted = false ->
        exists reason,
          (reason = ROLLBACK_NO_EMBEDDED
           \/ reason = ROLLBACK_REJECTED_BY_SELECTION_POLICY)
          /\ t = checkPrefix ++
                   [EvCheckForUpdateCallback (NoUpdateAvailable reason);
                    EvProcessEvent CheckCompleteUnavailable]).
Proof.
  intros directive response admitted t. subst t admitted response directive.
  destruct c as [cfg dir dirE l db h started lt rls msp dsp fin em tr].
  unfold embeddedUpdateOf, responseFilters. cbn [updatesConfiguration].
  destruct cfg as [enabled url key [|]];
    cbn [hasEmbeddedUpdate andb].
  - destruct (embeddedManifest context _) as [[[embedded|] raw]|] eqn:Hemb;
      cbn [updateEntity].
    + destruct (shouldLoadRollBackToEmbeddedDirective _ _ _ _ _) eqn:Hpolicy.
      * run. rewrite Hemb. cbn. unfold selectionPolicy, launchedUpdate in *.
        cbn in *. rewrite Hpolicy. cbn.
        split; [reflexivity|]. split; [|discriminate].
        intros _. read_added. reflexivity.
      * run. rewrite Hemb. cbn. unfold selectionPolicy, launchedUpdate in *.
        cbn in *. rewrite Hpolicy. cbn.
        split; [reflexivity|]. split; [discriminate|].
        intros _. exists ROLLBACK_REJECTED_BY_SELECTION_POLICY.
        split; [right; reflexivity|]. read_added. reflexivity.
    + run. rewrite Hemb. cbn.
      split; [reflexivity|]. split; [discriminate|].
      intros _. exists ROLLBACK_NO_EMBEDDED.
      split; [left; reflexivity|]. read_added. reflexivity.
    + run. rewrite Hemb. cbn.
      split; [reflexivity|]. split; [discriminate|].
      intros _. exists ROLLBACK_NO_EMBEDDED.
      split; [left; reflexivity|]. read_added. reflexivity.
  - run. split; [reflexivity|]. split; [discriminate|].
    intros _. exists ROLLBACK_NO_EMBEDDED.
    split; [left; reflexivity|]. read_added. reflexivity.
Qed.

(** Scenario S4 of the spec: U2 (commit time 300) is launched, the
    embedded update exists, the server sends a roll-back with commit time
    400%Z. *)
Example checkForUpdate_rollback_S4 :
  let c := engineLaunchedU2 in
  let response :=
    {| responseHeaderData := None;
       manifestUpdateResponsePart := None;
       directiveUpdateResponsePart := Some (RollBackToEmbeddedUpdateDirective 400%Z) |} in
  let t := added c (after (checkForUpdate contextOk (DownloadSucceeded response)) c) in
  callbacksOf t = [RollBackToEmbedded 400%Z]
  /\ eventsOf t = [Check; CheckCompleteWithRollback 400%Z]
  /\ machineState Idle t = Idle.
Proof. cbv zeta. repeat split; vm_compute; reflexivity. Qed.

(** C4.  For a response with neither a directive nor a manifest,
    [checkForUpdate] returns normally, its callback gets exactly
    [NoUpdateAvailable(NO_UPDATE_AVAILABLE_ON_SERVER)], and nothing of the
    controller but the trace changes: the catalog, the launcher and hence
    the launched update are as before. *)
Theorem checkForUpdate_empty_response_no_update (context : Context)
    (c : Controller) (headers : option ResponseHeaderData) :
  let response :=
    {| responseHeaderData := headers;
       manifestUpdateResponsePart := None;
       directiveUpdateResponsePart := None |} in
  let c' := after (checkForUpdate context (DownloadSucceeded response)) c in
  (checkForUpdate context (DownloadSucceeded response) c).1 = Returned tt
  /\ callbacksOf (added c c') = [NoUpdateAvailable NO_UPDATE_AVAILABLE_ON_SERVER]
  /\ database c' = database c
  /\ launcher c' = launcher c
  /\ launchedUpdate c' = launchedUpdate c
  /\ c' = set_trace (trace c') c.
Proof.
  intros response c'. subst c' response. unfold after.
  rewrite checkForUpdate_empty_response. cbn [fst snd].
  split; [reflexivity|]. split.
  { unfold added. cbn [trace set_trace]. rewrite drop_app_length. reflexivity. }
  destruct c; repeat split; reflexivity.
Qed.

(** The decision of lines 751-776 when an update is launched and the
    policy admits the manifest's update: the stored row decides. *)
Lemma checkForUpdate_admitted_manifest (context : Context) (c : Controller)
    (headers : option ResponseHeaderData) (updateManifest : UpdateManifest)
    (entity launched : UpdateEntity) (directive : option UpdateDirective) :
  launchedUpdate c = Some launched ->
  directive = None \/ directive = Some NoUpdateAvailableUpdateDirective ->
  updateEntity updateManifest = Some entity ->
  let response :=
    {| responseHeaderData := headers;
       manifestUpdateResponsePart := Some updateManifest;
       directiveUpdateResponsePart := directive |} in
  shouldLoadNewUpdate (selectionPolicy c) (Some entity) (Some launched)
    (responseFilters response) = true ->
  added c (after (checkForUpdate context (DownloadSucceeded response)) c) =
    checkPrefix ++ [EvGetDatabase; EvReleaseDatabase] ++
    match loadUpdateWithId (database c) (id entity) with
    | Some stored =>
        if Nat.eqb (failedLaunchCount stored) 0 then
          [EvCheckForUpdateCallback (UpdateAvailable updateManifest);
           EvProcessEvent (CheckCompleteWithUpdate (rawJson updateManifest))]
        else
          [EvCheckForUpdateCallback (NoUpdateAvailable UPDATE_PREVIOUSLY_FAILED);
           EvProcessEvent CheckCompleteUnavailable]
    | None =>
        [EvCheckForUpdateCallback (UpdateAvailable updateManifest);
         EvProcessEvent (CheckCompleteWithUpdate (rawJson updateManifest))]
    end.
Proof.
  intros Hlaunched Hdirective Hentity response Hpolicy. subst response.
  destruct c as [cfg dir dirE l db h started lt rls msp dsp fin em tr].
  destruct updateManifest as [ue raw]. cbn [updateEntity] in Hentity. subst ue.
  destruct l as [[lu file name files embedded]|]; [|discriminate Hlaunched].
  cbn [launchedUpdate launcher Launcher.launchedUpdate] in Hlaunched. subst lu.
  unfold added.
  destruct Hdirective as [-> | ->]; run; rewrite Hpolicy; run;
    (destruct (updates db !! id entity) as [stored|];
     [destruct (failedLaunchCount stored); cbn [Nat.eqb]|]);
    run; rewrite <- ?app_assoc; rewrite drop_app_length; reflexivity.
Qed.

(** With nothing launched, lines 743-749: every manifest of a response
    without roll-back directive is reported as available, and neither
    the policy nor the catalog is asked. *)
Lemma checkForUpdate_nothing_launched (context : Context) (c : Controller)
    (headers : option ResponseHeaderData) (updateManifest : UpdateManifest)
    (directive : option UpdateDirective) :
  launchedUpdate c = None ->
  directive = None \/ directive = Some NoUpdateAvailableUpdateDirective ->
  added c
    (after (checkForUpdate context
              (DownloadSucceeded
                 {| responseHeaderData := headers;
                    manifestUpdateResponsePart := Some updateManifest;
                    directiveUpdateResponsePart := directive |})) c) =
    checkPrefix ++
    [EvCheckForUpdateCallback (UpdateAvailable updateManifest);
     EvProcessEvent (CheckCompleteWithUpdate (rawJson updateManifest))].
Proof.
  intros Hlaunched Hdirective.
  destruct c as [cfg dir dirE l db h started lt rls msp dsp fin em tr].
  destruct updateManifest as [ue raw].
  unfold added.
  destruct l as [[[lu|] file name files embedded]|];
    try discriminate Hlaunched;
    destruct Hdirective as [-> | ->]; run;
    rewrite <- ?app_assoc; rewrite drop_app_length; reflexivity.
Qed.

(** A roll-back directive is dealt with before the manifest of the same
    response is looked at: the manifest part makes no difference. *)
Lemma checkForUpdate_rollback_ignores_manifest (context : Context)
    (c : Controller) (headers : option ResponseHeaderData)
    (manifestPart : option UpdateManifest) (commitTime : Date) :
  checkForUpdate context
    (DownloadSucceeded
       {| responseHeaderData := headers;
          manifestUpdateResponsePart := manifestPart;
          directiveUpdateResponsePart :=
            Some (RollBackToEmbeddedUpdateDirective commitTime) |}) c =
  checkForUpdate context
    (DownloadSucceeded
       {| responseHeaderData := headers;
          manifestUpdateResponsePart := None;
          directiveUpdateResponsePart :=
            Some (RollBackToEmbeddedUpdateDirective commitTime) |}) c.
Proof.
  destruct c as [cfg dir dirE l db h started lt rls msp dsp fin em tr].
  run. reflexivity.
Qed.

(** C5, as amended.  For a response with a manifest and no roll-back
    directive there are two cases.  When an update is launched, a
    manifest whose update [shouldLoadNewUpdate] admits is excluded if
    that update is stored in the catalog with [failedLaunchCount >= 1]
    (whatever its [successfulLaunchCount]): the callback gets
    [NoUpdateAvailable(UPDATE_PREVIOUSLY_FAILED)] and the state machine
    [CheckCompleteUnavailable]; if the update is not stored, or stored
    with no failed launch, the callback gets [UpdateAvailable].  When no
    update is launched, every manifest is reported as [UpdateAvailable],
    and neither the policy nor the catalog is consulted.  A roll-back
    directive in the response is handled before the manifest: the
    outcome is that of the same response without manifest. *)
Theorem checkForUpdate_previously_failed (context : Context) (c : Controller)
    (headers : option ResponseHeaderData) (updateManifest : UpdateManifest) :
  let response directive :=
    {| responseHeaderData := headers;
       manifestUpdateResponsePart := Some updateManifest;
       directiveUpdateResponsePart := directive |} in
  let t directive :=
    added c (after (checkForUpdate context (DownloadSucceeded (response directive))) c) in
  (forall directive entity launched,
     directive = None \/ directive = Some NoUpdateAvailableUpdateDirective ->
     launchedUpdate c = Some launched ->
     updateEntity updateManifest = Some entity ->
     shouldLoadNewUpdate (selectionPolicy c) (Some entity) (Some launched)
       (responseFilters (response directive)) = true ->
     (forall stored,
        loadUpdateWithId (database c) (id entity) = Some stored ->
        1 <= failedLaunchCount stored ->
        callbacksOf (t directive) = [NoUpdateAvailable UPDATE_PREVIOUSLY_FAILED]
        /\ eventsOf (t directive) = [Check; CheckCompleteUnavailable])
     /\ ((loadUpdateWithId (database c) (id entity) = None
          \/ exists stored,
               loadUpdateWithId (database c) (id entity) = Some stored
               /\ failedLaunchCount stored = 0) ->
         callbacksOf (t directive) = [UpdateAvailable updateManifest]
         /\ eventsOf (t directive) =
              [Check; CheckCompleteWithUpdate (rawJson updateManifest)]))
  /\ (forall directive,
        directive = None \/ directive = Some NoUpdateAvailableUpdateDirective ->
        launchedUpdate c = None ->
        t directive =
          checkPrefix ++
          [EvCheckForUpdateCallback (UpdateAvailable updateManifest);
           EvProcessEvent (CheckCompleteWithUpdate (rawJson updateManifest))])
  /\ (forall commitTime,
        checkForUpdate context
          (DownloadSucceeded
             (response (Some (RollBackToEmbeddedUpdateDirective commitTime)))) c =
        checkForUpdate context
          (DownloadSucceeded
             {| responseHeaderData := headers;
                manifestUpdateResponsePart := None;
                directiveUpdateResponsePart :=
                  Some (RollBackToEmbeddedUpdateDirective commitTime) |}) c).
Proof.
  intros response t. subst t response. cbv beta. split; [|split].
  - intros directive entity launched Hdirective Hlaunched Hentity Hpolicy.
    rewrite (checkForUpdate_admitted_manifest context c headers updateManifest
               entity launched directive Hlaunched Hdirective Hentity Hpolicy).
    split.
    + intros stored Hstored Hfailed. rewrite Hstored.
      destruct (failedLaunchCount stored) as [|n]; [lia|].
      split; reflexivity.
    + intros [Hnone | (stored & Hstored & Hzero)].
      * rewrite Hnone. split; reflexivity.
      * rewrite Hstored, Hzero. split; reflexivity.
  - intros directive Hdirective Hlaunched.
    apply checkForUpdate_nothing_launched; assumption.
  - intros commitTime. apply checkForUpdate_rollback_ignores_manifest.
Qed.

(** U2 is launched; the server offers U3, which is newer and is stored
    with one failed launch. *)
Lemma checkForUpdate_previously_failed_witness :
  let c := engineLaunchedU2 in
  let response :=
    {| responseHeaderData := None;
       manifestUpdateResponsePart := Some (manifestOf updateU3);
       directiveUpdateResponsePart := None |} in
  let t := added c (after (checkForUpdate contextOk (DownloadSucceeded response)) c) in
  callbacksOf t = [NoUpdateAvailable UPDATE_PREVIOUSLY_FAILED]
  /\ eventsOf t = [Check; CheckCompleteUnavailable].
Proof.
  cbv zeta.
  refine (proj1 (proj1 (checkForUpdate_previously_failed contextOk
                          engineLaunchedU2 None (manifestOf updateU3))
                   None updateU3 updateU2
                   (or_introl eq_refl) eq_refl eq_refl eq_refl)
            updateU3 eq_refl _).
  cbn [failedLaunchCount updateU3]. lia.
Defined.

(** C5 fails as stated: with nothing launched, line 743 reports every
    manifest as available.  The engine has been started and its loader
    task has not yet delivered a launcher, so [launcher] is null and with
    it [launchedUpdate] (line 284).  U3 is stored with one failed and no
    successful launch, the policy admits it, and the callback gets
    [UpdateAvailable]. *)
Lemma checkForUpdate_failed_update_offered_before_launch :
  let c := engineStarted in
  let response :=
    {| responseHeaderData := None;
       manifestUpdateResponsePart := Some (manifestOf updateU3);
       directiveUpdateResponsePart := None |} in
  let t := added c (after (checkForUpdate contextOk (DownloadSucceeded response)) c) in
  launcher c = None
  /\ launchedUpdate c = None
  /\ shouldLoadNewUpdate (selectionPolicy c) (Some updateU3) (launchedUpdate c)
       (responseFilters response) = true
  /\ loadUpdateWithId (database c) (id updateU3) = Some updateU3
  /\ failedLaunchCount updateU3 = 1
  /\ successfulLaunchCount updateU3 = 0
  /\ callbacksOf t = [UpdateAvailable (manifestOf updateU3)].
Proof. cbv zeta. repeat split; vm_compute; reflexivity. Qed.

(** The same after [setLauncher(null)] on a running engine, and on an
    emergency launch, where the no-database launcher has no launched
    update. *)
Example checkForUpdate_offers_failed_update_after_setLauncher_null :
  let response :=
    {| responseHeaderData := None;
       manifestUpdateResponsePart := Some (manifestOf updateU3);
       directiveUpdateResponsePart := None |} in
  callbacksOf
    (added (after (setLauncher None) engineLaunchedU2)
       (after (checkForUpdate contextOk (DownloadSucceeded response))
          (after (setLauncher None) engineLaunchedU2))) =
    [UpdateAvailable (manifestOf updateU3)]
  /\ callbacksOf
       (added engineEmergency
          (after (checkForUpdate contextNoDirectory (DownloadSucceeded response))
             engineEmergency)) =
       [UpdateAvailable (manifestOf updateU3)].
Proof. cbv zeta. split; vm_compute; reflexivity. Qed.

(** The other way past the check of stored failures: an admitted
    roll-back directive in the same response wins over the manifest. *)
Example checkForUpdate_rollback_before_manifest :
  let c := engineLaunchedU2 in
  let response :=
    {| responseHeaderData := None;
       manifestUpdateResponsePart := Some (manifestOf updateU3);
       directiveUpdateResponsePart := Some (RollBackToEmbeddedUpdateDirective 400%Z) |} in
  callbacksOf
    (added c (after (checkForUpdate contextOk (DownloadSucceeded response)) c)) =
    [RollBackToEmbedded 400%Z].
Proof. cbv zeta. vm_compute. reflexivity. Qed.

(** *** [getExtraParams] and [setExtraParam] *)

(** Everything [getExtraParams] logs, case by case. *)
Lemma getExtraParams_trace
    (metadata : UpdatesDatabase -> UpdatesConfiguration ->
                Exception + option (list (string * string)))
    (cb : GetExtraParamsCallback) (c : Controller) :
  added c (after (getExtraParams metadata cb) c) =
    [EvGetDatabase; EvReleaseDatabase] ++
    match metadata (database c) (updatesConfiguration c) with
    | inr result =>
        let resultMap := match result with None => [] | Some entries => entries end in
        EvGetExtraParamsOnSuccess resultMap ::
        match getExtraParams_onSuccess cb resultMap with
        | None => []
        | Some e => [EvReleaseDatabase; EvGetExtraParamsOnFailure e]
        end
    | inl e => [EvGetExtraParamsOnFailure e]
    end.
Proof.
  destruct c as [cfg dir dirE l db h started lt rls msp dsp fin em tr].
  unfold added. crunch; rewrite <- ?app_assoc; rewrite drop_app_length;
    reflexivity.
Qed.

(** Everything [setExtraParam] logs, case by case. *)
Lemma setExtraParam_trace
    (metadata : UpdatesDatabase -> UpdatesConfiguration -> string ->
                option string -> Exception + UpdatesDatabase)
    (key : string) (value : option string) (cb : SetExtraParamsCallback)
    (c : Controller) :
  added c (after (setExtraParam metadata key value cb) c) =
    [EvGetDatabase; EvReleaseDatabase] ++
    match metadata (database c) (updatesConfiguration c) key value with
    | inr _ =>
        EvSetExtraParamOnSuccess ::
        match setExtraParam_onSuccess cb with
        | None => []
        | Some e => [EvReleaseDatabase; EvSetExtraParamOnFailure e]
        end
    | inl e => [EvSetExtraParamOnFailure e]
    end.
Proof.
  destruct c as [cfg dir dirE l db h started lt rls msp dsp fin em tr].
  unfold added. crunch; rewrite <- ?app_assoc; rewrite drop_app_length;
    reflexivity.
Qed.

(** The first three conjuncts on an explicit trace. *)
Ltac lease_counts :=
  split; [reflexivity|];
  split; [vm_compute; reflexivity|];
  split; [vm_compute; lia|].

(** C8.  [getExtraParams] and [setExtraParam] take the database lease
    once and release it on every path: whether the metadata operation
    returns or throws, the first three effects are the acquisition, one
    [releaseDatabase], and the callback ([onSuccess] after a return,
    [onFailure] after a throw), so the lease is released before any
    callback runs and is never left held.  When the callbacks return
    normally these three effects are all there is. *)
Theorem extraParams_release_lease :
  (forall metadata cb c,
     let t := added c (after (getExtraParams metadata cb) c) in
     take 3 t =
       [EvGetDatabase; EvReleaseDatabase;
        match metadata (database c) (updatesConfiguration c) with
        | inr None => EvGetExtraParamsOnSuccess []
        | inr (Some entries) => EvGetExtraParamsOnSuccess entries
        | inl e => EvGetExtraParamsOnFailure e
        end]
     /\ count isGetDatabase t = 1
     /\ 1 <= count isReleaseDatabase t
     /\ ((forall b, getExtraParams_onSuccess cb b = None) ->
         length t = 3 /\ count isReleaseDatabase t = 1))
  /\ (forall metadata key value cb c,
        let t := added c (after (setExtraParam metadata key value cb) c) in
        take 3 t =
          [EvGetDatabase; EvReleaseDatabase;
           match metadata (database c) (updatesConfiguration c) key value with
           | inr _ => EvSetExtraParamOnSuccess
           | inl e => EvSetExtraParamOnFailure e
           end]
        /\ count isGetDatabase t = 1
        /\ 1 <= count isReleaseDatabase t
        /\ (setExtraParam_onSuccess cb = None ->
            length t = 3 /\ count isReleaseDatabase t = 1)).
Proof.
  split.
  - intros metadata cb c t. subst t. rewrite getExtraParams_trace.
    destruct (metadata (database c) (updatesConfiguration c)) as [e|[entries|]];
      cbv zeta.
    + lease_counts. intros _. split; reflexivity.
    + destruct (getExtraParams_onSuccess cb entries) as [e|] eqn:Hcb.
      * lease_counts. intros Hnormal. rewrite Hnormal in Hcb. discriminate.
      * lease_counts. intros _. split; reflexivity.
    + destruct (getExtraParams_onSuccess cb []) as [e|] eqn:Hcb.
      * lease_counts. intros Hnormal. rewrite Hnormal in Hcb. discriminate.
      * lease_counts. intros _. split; reflexivity.
  - intros metadata key value cb c t. subst t. rewrite setExtraParam_trace.
    destruct (metadata (database c) (updatesConfiguration c) key value) as [e|db'].
    + lease_counts. intros _. split; reflexivity.
    + destruct (setExtraParam_onSuccess cb) as [e|] eqn:Hcb.
      * lease_counts. discriminate.
      * lease_counts. intros _. split; reflexivity.
Qed.

(** When [onSuccess] itself throws an exception, the [catch] releases a
    second time before it calls [onFailure]. *)
Example getExtraParams_throwing_onSuccess :
  let c := engineNew in
  let cb := {| getExtraParams_onFailure := fun _ => None;
               getExtraParams_onSuccess := fun _ => Some "boom" |} in
  added c (after (getExtraParams (fun _ _ => inr None) cb) c) =
    [EvGetDatabase; EvReleaseDatabase; EvGetExtraParamsOnSuccess [];
     EvReleaseDatabase; EvGetExtraParamsOnFailure "boom"].
Proof. cbv zeta. vm_compute. reflexivity. Qed.

(** *** The launch counters *)

Lemma neverDecreased_refl (db : UpdatesDatabase) : neverDecreased db db.
Proof. intros i u Hu. exists u. split; [exact Hu|]. split; lia. Qed.

Lemma neverDecreased_trans (db1 db2 db3 : UpdatesDatabase) :
  neverDecreased db1 db2 -> neverDecreased db2 db3 -> neverDecreased db1 db3.
Proof.
  intros H12 H23 i u Hu.
  destruct (H12 i u Hu) as (u2 & Hu2 & Hf2 & Hs2).
  destruct (H23 i u2 Hu2) as (u3 & Hu3 & Hf3 & Hs3).
  exists u3. split; [exact Hu3|]. split; lia.
Qed.

(** What the two DAO calls do to a row: the row of the update's id gets
    one counter raised by one, every other row is untouched. *)
Lemma incrementFailedLaunchCount_row (launched : UpdateEntity)
    (db : UpdatesDatabase) (i : string) :
  updates (incrementFailedLaunchCount launched db) !! i =
    if decide (id launched = i) then bumpFailed <$> updates db !! i
    else updates db !! i.
Proof.
  unfold incrementFailedLaunchCount. cbn [updates]. rewrite lookup_alter.
  destruct (decide (id launched = i)) as [<-|]; reflexivity.
Qed.

Lemma incrementSuccessfulLaunchCount_row (launched : UpdateEntity)
    (db : UpdatesDatabase) (i : string) :
  updates (incrementSuccessfulLaunchCount launched db) !! i =
    if decide (id launched = i) then bumpSuccessful <$> updates db !! i
    else updates db !! i.
Proof.
  unfold incrementSuccessfulLaunchCount. cbn [updates]. rewrite lookup_alter.
  destruct (decide (id launched = i)) as [<-|]; reflexivity.
Qed.

Lemma incrementFailedLaunchCount_neverDecreased (launched : UpdateEntity)
    (db : UpdatesDatabase) :
  neverDecreased db (incrementFailedLaunchCount launched db).
Proof.
  intros i u Hu. rewrite incrementFailedLaunchCount_row.
  destruct (decide (id launched = i)).
  - rewrite Hu. exists (bumpFailed u). split; [reflexivity|]. cbn. split; lia.
  - exists u. split; [exact Hu|]. split; lia.
Qed.

Lemma incrementSuccessfulLaunchCount_neverDecreased (launched : UpdateEntity)
    (db : UpdatesDatabase) :
  neverDecreased db (incrementSuccessfulLaunchCount launched db).
Proof.
  intros i u Hu. rewrite incrementSuccessfulLaunchCount_row.
  destruct (decide (id launched = i)).
  - rewrite Hu. exists (bumpSuccessful u). split; [reflexivity|]. cbn. split; lia.
  - exists u. split; [exact Hu|]. split; lia.
Qed.

(** What one step does to the catalog: nothing, or one of the two DAO
    calls for the update that is launched when the posted closure runs. *)
Lemma markStep_database (s : MarkStep) (c : Controller) :
  database (markStep s c) = database c
  \/ exists launched,
       s = DatabaseThreadRuns
       /\ launchedUpdate c = Some launched
       /\ (database (markStep s c) = incrementFailedLaunchCount launched (database c)
           \/ database (markStep s c) =
                incrementSuccessfulLaunchCount launched (database c)).
Proof.
  destruct c as [cfg dir dirE l db h started lt rls msp dsp fin em tr].
  destruct s; cbn [markStep].
  - left. destruct em, h; run; reflexivity.
  - left. destruct em, h; run; reflexivity.
  - destruct h as [[|task queue]|]; try (left; run; reflexivity).
    destruct l as [[[launched|] file name files embedded]|];
      try (left; run; reflexivity).
    right. exists launched. split; [reflexivity|]. split; [reflexivity|].
    destruct task; run; [left|right]; reflexivity.
Qed.

Lemma markStep_neverDecreased (s : MarkStep) (c : Controller) :
  neverDecreased (database c) (database (markStep s c)).
Proof.
  destruct (markStep_database s c) as [-> | (launched & _ & _ & [-> | ->])].
  - apply neverDecreased_refl.
  - apply incrementFailedLaunchCount_neverDecreased.
  - apply incrementSuccessfulLaunchCount_neverDecreased.
Qed.

Lemma markSteps_neverDecreased (steps : list MarkStep) :
  forall c, neverDecreased (database c) (database (markSteps steps c)).
Proof.
  induction steps as [|s rest IH]; intros c; cbn.
  - apply neverDecreased_refl.
  - eapply neverDecreased_trans; [apply markStep_neverDecreased|].
    apply IH.
Qed.

(** Each call posts its own closure and touches nothing else: outside
    an emergency launch [markFailedLaunchForLaunchedUpdate] appends
    [PostedMarkFailedLaunch] to the handler's queue, and
    [markSuccessfulLaunchForLaunchedUpdate] appends
    [PostedMarkSuccessfulLaunch]. *)
Lemma markStep_call_posts (c : Controller) (queue : list PostedTask) :
  isEmergencyLaunch c = false ->
  databaseHandler c = Some queue ->
  markStep CallMarkFailedLaunch c =
    set_databaseHandler (Some (queue ++ [PostedMarkFailedLaunch])) c
  /\ markStep CallMarkSuccessfulLaunch c =
       set_databaseHandler (Some (queue ++ [PostedMarkSuccessfulLaunch])) c.
Proof.
  destruct c as [cfg dir dirE l db h started lt rls msp dsp fin em tr].
  cbn [isEmergencyLaunch databaseHandler]. intros -> ->.
  split; run; reflexivity.
Qed.

(** Each posted closure raises its own counter: the closure posted by
    [markFailedLaunchForLaunchedUpdate] calls [incrementFailedLaunchCount]
    and the one posted by [markSuccessfulLaunchForLaunchedUpdate] calls
    [incrementSuccessfulLaunchCount], each on the update that is launched
    when the closure runs. *)
Lemma markStep_runs_posted (c : Controller) (task : PostedTask)
    (queue : list PostedTask) (launched : UpdateEntity) :
  databaseHandler c = Some (task :: queue) ->
  launchedUpdate c = Some launched ->
  database (markStep DatabaseThreadRuns c) =
    match task with
    | PostedMarkFailedLaunch => incrementFailedLaunchCount launched (database c)
    | PostedMarkSuccessfulLaunch =>
        incrementSuccessfulLaunchCount launched (database c)
    end
  /\ databaseHandler (markStep DatabaseThreadRuns c) = Some queue.
Proof.
  destruct c as [cfg dir dirE l db h started lt rls msp dsp fin em tr].
  cbn [databaseHandler]. intros -> Hlaunched.
  destruct l as [[[lu|] file name files embedded]|];
    try discriminate Hlaunched.
  injection Hlaunched as ->.
  destruct task; run; split; reflexivity.
Qed.

(** A call followed by the run of what it posted, the queue being empty
    before. *)
Lemma markSteps_call_then_run (c : Controller) (launched : UpdateEntity) :
  isEmergencyLaunch c = false ->
  databaseHandler c = Some [] ->
  launchedUpdate c = Some launched ->
  database (markSteps [CallMarkFailedLaunch; DatabaseThreadRuns] c) =
    incrementFailedLaunchCount launched (database c)
  /\ database (markSteps [CallMarkSuccessfulLaunch; DatabaseThreadRuns] c) =
       incrementSuccessfulLaunchCount launched (database c).
Proof.
  destruct c as [cfg dir dirE l db h started lt rls msp dsp fin em tr].
  cbn [isEmergencyLaunch databaseHandler]. intros -> -> Hlaunched.
  destruct l as [[[lu|] file name files embedded]|];
    try discriminate Hlaunched.
  injection Hlaunched as ->.
  unfold markSteps. cbn [fold_left].
  split; run; reflexivity.
Qed.

(** C9.  Over every history of [markFailedLaunchForLaunchedUpdate] and
    [markSuccessfulLaunchForLaunchedUpdate] calls and of runs of the
    closures they posted, no row of the catalog loses a launch: each
    step leaves the catalog as it is or raises, by exactly one, the
    failed (or the successful) counter of the launched update's row and
    nothing else.  With [isEmergencyLaunch] set both calls return
    without posting anything, and with no update launched a posted
    closure leaves the catalog unchanged.  Each call is tied to its own
    counter: outside an emergency launch
    [markFailedLaunchForLaunchedUpdate] posts the closure that calls
    [incrementFailedLaunchCount] and
    [markSuccessfulLaunchForLaunchedUpdate] the one that calls
    [incrementSuccessfulLaunchCount]; when the database thread runs the
    closure, the row of the update launched then has the corresponding
    counter raised by one and the other counter as before. *)
Theorem launch_counters_never_decrease :
  (forall steps c, neverDecreased (database c) (database (markSteps steps c)))
  /\ (forall s c,
        database (markStep s c) = database c
        \/ exists launched,
             launchedUpdate c = Some launched
             /\ (database (markStep s c) =
                   incrementFailedLaunchCount launched (database c)
                 \/ database (markStep s c) =
                      incrementSuccessfulLaunchCount launched (database c)))
  /\ (forall launched db i u,
        updates db !! i = Some u ->
        updates (incrementFailedLaunchCount launched db) !! i =
          Some (if decide (id launched = i)
                then mkUpdateEntity (id u) (commitTime u) (manifest u)
                       (failedLaunchCount u + 1) (successfulLaunchCount u)
                else u)
        /\ updates (incrementSuccessfulLaunchCount launched db) !! i =
             Some (if decide (id launched = i)
                   then mkUpdateEntity (id u) (commitTime u) (manifest u)
                          (failedLaunchCount u) (successfulLaunchCount u + 1)
                   else u))
  /\ (forall c,
        isEmergencyLaunch c = true ->
        markFailedLaunchForLaunchedUpdate c = (Returned tt, c)
        /\ markSuccessfulLaunchForLaunchedUpdate c = (Returned tt, c))
  /\ (forall s c,
        launchedUpdate c = None -> database (markStep s c) = database c)
  /\ (forall c,
        database (markStep CallMarkFailedLaunch c) = database c
        /\ database (markStep CallMarkSuccessfulLaunch c) = database c)
  /\ (forall c queue,
        isEmergencyLaunch c = false ->
        databaseHandler c = Some queue ->
        markStep CallMarkFailedLaunch c =
          set_databaseHandler (Some (queue ++ [PostedMarkFailedLaunch])) c
        /\ markStep CallMarkSuccessfulLaunch c =
             set_databaseHandler (Some (queue ++ [PostedMarkSuccessfulLaunch])) c)
  /\ (forall c queue launched,
        launchedUpdate c = Some launched ->
        (databaseHandler c = Some (PostedMarkFailedLaunch :: queue) ->
         database (markStep DatabaseThreadRuns c) =
           incrementFailedLaunchCount launched (database c)
         /\ databaseHandler (markStep DatabaseThreadRuns c) = Some queue)
        /\ (databaseHandler c = Some (PostedMarkSuccessfulLaunch :: queue) ->
            database (markStep DatabaseThreadRuns c) =
              incrementSuccessfulLaunchCount launched (database c)
            /\ databaseHandler (markStep DatabaseThreadRuns c) = Some queue))
  /\ (forall c,
        databaseHandler c = Some [] \/ databaseHandler c = None ->
        database (markStep DatabaseThreadRuns c) = database c)
  /\ (forall c launched u,
        isEmergencyLaunch c = false ->
        databaseHandler c = Some [] ->
        launchedUpdate c = Some launched ->
        updates (database c) !! id launched = Some u ->
        updates (database (markSteps [CallMarkFailedLaunch; DatabaseThreadRuns] c))
          !! id launched =
          Some (mkUpdateEntity (id u) (commitTime u) (manifest u)
                  (failedLaunchCount u + 1) (successfulLaunchCount u))
        /\ updates (database (markSteps [CallMarkSuccessfulLaunch;
                                         DatabaseThreadRuns] c))
             !! id launched =
             Some (mkUpdateEntity (id u) (commitTime u) (manifest u)
                     (failedLaunchCount u) (successfulLaunchCount u + 1))).
Proof.
  assert (Hrow : forall launched db i u,
             updates db !! i = Some u ->
             updates (incrementFailedLaunchCount launched db) !! i =
               Some (if decide (id launched = i)
                     then mkUpdateEntity (id u) (commitTime u) (manifest u)
                            (failedLaunchCount u + 1) (successfulLaunchCount u)
                     else u)
             /\ updates (incrementSuccessfulLaunchCount launched db) !! i =
                  Some (if decide (id launched = i)
                        then mkUpdateEntity (id u) (commitTime u) (manifest u)
                               (failedLaunchCount u) (successfulLaunchCount u + 1)
                        else u)).
  { intros launched db i u Hu.
    rewrite incrementFailedLaunchCount_row, incrementSuccessfulLaunchCount_row.
    destruct (decide (id launched = i)); rewrite Hu; cbn; [|split; reflexivity].
    unfold bumpFailed, bumpSuccessful. rewrite !Nat.add_1_r.
    split; reflexivity. }
  split; [intros steps c; apply markSteps_neverDecreased|].
  split.
  { intros s c.
    destruct (markStep_database s c) as [H | (launched & _ & Hl & H)];
      [left; exact H|right; exists launched; split; assumption]. }
  split; [exact Hrow|].
  split.
  { intros c Hem.
    unfold markFailedLaunchForLaunchedUpdate, markSuccessfulLaunchForLaunchedUpdate,
      bind, get, ret.
    rewrite Hem. split; reflexivity. }
  split.
  { intros s c Hnone.
    destruct (markStep_database s c) as [H | (launched & _ & Hl & _)];
      [exact H|]. rewrite Hnone in Hl. discriminate. }
  split.
  { intros c.
    split.
    - destruct (markStep_database CallMarkFailedLaunch c)
        as [H | (launched & Hs & _)]; [exact H|discriminate Hs].
    - destruct (markStep_database CallMarkSuccessfulLaunch c)
        as [H | (launched & Hs & _)]; [exact H|discriminate Hs]. }
  split; [intros c queue; apply markStep_call_posts|].
  split.
  { intros c queue launched Hlaunched. split; intros Hqueue.
    - exact (markStep_runs_posted c PostedMarkFailedLaunch queue launched
               Hqueue Hlaunched).
    - exact (markStep_runs_posted c PostedMarkSuccessfulLaunch queue launched
               Hqueue Hlaunched). }
  split.
  { intros c Hqueue.
    destruct c as [cfg dir dirE l db h started lt rls msp dsp fin em tr].
    cbn [databaseHandler] in Hqueue.
    destruct Hqueue as [-> | ->]; run; reflexivity. }
  intros c launched u Hem Hqueue Hlaunched Hu.
  destruct (markSteps_call_then_run c launched Hem Hqueue Hlaunched) as [-> ->].
  destruct (Hrow launched (database c) (id launched) u Hu) as [Hf Hs].
  rewrite Hf, Hs.
  destruct (decide (id launched = id launched)) as [_|Hne];
    [split; reflexivity|contradiction].
Qed.

(** Scenario S5 of the spec on the engine of the examples: U2 is
    launched with no failed and one successful launch stored.  Marking a
    failed launch raises only the failed counter once the database
    thread has run; marking a successful launch afterwards raises only
    the successful one. *)
Example markFailedLaunch_S5 :
  let c := engineLaunchedU2 in
  let c1 := markSteps [CallMarkFailedLaunch; DatabaseThreadRuns] c in
  let c' := markSteps [CallMarkFailedLaunch; DatabaseThreadRuns;
                       CallMarkSuccessfulLaunch; DatabaseThreadRuns] c in
  (failedLaunchCount <$> loadUpdateWithId (database c) "U2") = Some 0
  /\ (successfulLaunchCount <$> loadUpdateWithId (database c) "U2") = Some 1
  /\ database (markStep CallMarkFailedLaunch c) = database c
  /\ (failedLaunchCount <$> loadUpdateWithId (database c1) "U2") = Some 1
  /\ (successfulLaunchCount <$> loadUpdateWithId (database c1) "U2") = Some 1
  /\ (failedLaunchCount <$> loadUpdateWithId (database c') "U2") = Some 1
  /\ (successfulLaunchCount <$> loadUpdateWithId (database c') "U2") = Some 2
  /\ loadUpdateWithId (database c') "U3" = Some updateU3
  /\ count isGetDatabase (added c c') = count isReleaseDatabase (added c c').
Proof. cbv zeta. repeat split; vm_compute; reflexivity. Qed.

(** The other call alone: only the successful counter moves. *)
Example markSuccessfulLaunch_S5 :
  let c := engineLaunchedU2 in
  let c1 := markSteps [CallMarkSuccessfulLaunch; DatabaseThreadRuns] c in
  (failedLaunchCount <$> loadUpdateWithId (database c1) "U2") = Some 0
  /\ (successfulLaunchCount <$> loadUpdateWithId (database c1) "U2") = Some 2.
Proof. cbv zeta. split; vm_compute; reflexivity. Qed.

(** On an emergency launch nothing is posted and the catalog stays. *)
Example markFailedLaunch_emergency :
  let c := engineEmergency in
  markSteps [CallMarkFailedLaunch; DatabaseThreadRuns;
             CallMarkSuccessfulLaunch; DatabaseThreadRuns] c = c.
Proof. cbv zeta. vm_compute. reflexivity. Qed.

(* ===================================================================== *)
(** ** Part VII.  Further properties of [UpdatesController]              *)
(* ===================================================================== *)

(** [run] extended to the rest of the controller. *)
Ltac run_all :=
  lazy beta iota zeta delta
    [after start notifyController loaderTask_onFailure
     loaderTask_onSuccess loaderTask_onRemoteUpdateManifestResponseManifestLoaded
     setLauncher initializeDatabaseHandler
     markFailedLaunchForLaunchedUpdate markSuccessfulLaunchForLaunchedUpdate
     post handlerRunNext runPostedTask markStep perform
     checkForUpdate checkForUpdate_task checkForUpdate_onSuccess
     checkForUpdate_onFailure checkForUpdate_shouldLaunch callback
     getExtraParams setExtraParam invoke tryCatch
     getDatabase releaseDatabase processEvent emit modify get throw ret
     bind log set_launcher set_database set_databaseHandler set_isStarted
     set_loaderTask set_remoteLoadStatus set_isLoaderTaskFinished
     set_isEmergencyLaunch set_trace set_mSelectionPolicy
     setNextSelectionPolicy resetSelectionPolicyToDefault
     fetchUpdate setRemoteLoadStatus loadRemoteUpdate onUpdateResponseLoaded
     initialize initializeWithoutStarting newController
     hasUpdateUrlAndScopeKey
     fetchLoad fetchCatalog availableUpdate didRollBackToEmbedded
     loadedUpdateEntity loadedUpdateDirective isRunning
     updatesConfiguration updatesDirectory updatesDirectoryException launcher
     database databaseHandler isStarted loaderTask remoteLoadStatus
     mSelectionPolicy defaultSelectionPolicy isLoaderTaskFinished
     isEmergencyLaunch trace
     isEnabled updateUrl scopeKey hasEmbeddedUpdate
     responseHeaderData manifestUpdateResponsePart directiveUpdateResponsePart
     manifestFilters updateEntity rawJson
     Launcher.launchedUpdate Launcher.launchAssetFile
     launchedUpdate selectionPolicy responseFilters loadUpdateWithId
     embeddedUpdateOf launcherLaunchAssetFile
     negb andb fst snd] in *.

Ltac crunch_all := run_all; repeat (branch_step; run_all).

(** The effects added, once the state is computed. *)
Ltac read_trace :=
  rewrite <- ?app_assoc; rewrite ?drop_app_length, ?drop_all.

(** *** [start], once more *)

Lemma start_when_started (context : Context) (c : Controller) :
  isStarted c = true -> start context c = (Returned tt, c).
Proof.
  intros Hstarted. unfold start, bind, get, ret. rewrite Hstarted. reflexivity.
Qed.

Lemma start_invalid_configuration (context : Context) (c : Controller) :
  isStarted c = false ->
  isEnabled (updatesConfiguration c) = true ->
  hasUpdateUrlAndScopeKey (updatesConfiguration c) = false ->
  exists message,
    start context c = (Threw (AssertionError message), set_isStarted true c).
Proof.
  destruct c as [[enabled url key emb] dir dirE l db h started lt rls msp dsp fin em tr].
  run_all. intros -> -> Hvalid.
  destruct url, key; try discriminate Hvalid; eexists; reflexivity.
Qed.

Lemma start_returns (context : Context) (c : Controller) :
  isStarted c = true
  \/ isEnabled (updatesConfiguration c) = false
  \/ hasUpdateUrlAndScopeKey (updatesConfiguration c) = true ->
  (start context c).1 = Returned tt.
Proof.
  destruct c as [[enabled url key emb] dir dirE l db h started lt rls msp dsp fin em tr].
  destruct started; [intros _; reflexivity|].
  destruct enabled.
  - destruct url, key; run_all;
      try (intros [H|[H|H]]; discriminate H).
    intros _. destruct dir, h; reflexivity.
  - intros _. reflexivity.
Qed.

Lemma waiting_spurious (n : nat) :
  forall c, isLoaderTaskFinished c = false ->
    exists c', waiting (replicate n Wake) c = StillWaiting c'
               /\ isLoaderTaskFinished c' = false
               /\ launcher c' = launcher c.
Proof.
  induction n as [|n IH]; intros c Hfin; cbn [replicate waiting].
  - exists c. repeat split; assumption.
  - rewrite Hfin.
    destruct (IH (log EvWait c)) as (c' & Hrun & Hfin' & Hl); [exact Hfin|].
    exists c'. repeat split; assumption.
Qed.

(** X5.  [start] throws only for an enabled configuration without update URL
    or scope key, on an engine not yet started; it has then already set
    [isStarted] and done nothing else.  So the failure is not retried: a
    later [start] returns at once, no launcher is ever installed by it,
    and a caller of [launchAssetFile] stays blocked. *)
Theorem start_throws_only_on_invalid_configuration (context : Context)
    (c : Controller) :
  ((start context c).1 = Returned tt <->
   isStarted c = true
   \/ isEnabled (updatesConfiguration c) = false
   \/ hasUpdateUrlAndScopeKey (updatesConfiguration c) = true)
  /\ ((start context c).1 <> Returned tt ->
      after (start context) c = set_isStarted true c
      /\ forall context' n,
           isLoaderTaskFinished c = false ->
           exists c',
             launchAssetFile (Other (ActStart context') :: replicate n Wake)
               (after (start context) c) = StillWaiting c'
             /\ launcher c' = launcher c).
Proof.
  assert (Hcases :
            (isStarted c = true
             \/ isEnabled (updatesConfiguration c) = false
             \/ hasUpdateUrlAndScopeKey (updatesConfiguration c) = true)
            \/ (isStarted c = false
                /\ isEnabled (updatesConfiguration c) = true
                /\ hasUpdateUrlAndScopeKey (updatesConfiguration c) = false)).
  { destruct (isStarted c), (isEnabled (updatesConfiguration c)),
      (hasUpdateUrlAndScopeKey (updatesConfiguration c)); tauto. }
  destruct Hcases as [Hok | (Hs & He & Hv)].
  - pose proof (start_returns context c Hok) as Hret. split.
    + split; [intros _; exact Hok|intros _; exact Hret].
    + intros Hthrew. contradiction.
  - destruct (start_invalid_configuration context c Hs He Hv) as [message Hrun].
    split.
    + split.
      * rewrite Hrun. discriminate.
      * intros [H|[H|H]]; congruence.
    + intros _. unfold after. rewrite Hrun. cbn [snd].
      split; [reflexivity|].
      intros context' n Hfin.
      unfold launchAssetFile.
      replace (isLoaderTaskFinished (set_isStarted true c)) with false
        by (symmetry; exact Hfin).
      cbn [waiting perform]. unfold after.
      rewrite start_when_started by reflexivity. cbn [snd].
      destruct (waiting_spurious n (log EvWait (set_isStarted true c)))
        as (c' & Hwait & _ & Hl); [exact Hfin|].
      exists c'. split; [exact Hwait|]. rewrite Hl. reflexivity.
Qed.

(** *** The callbacks of the loader task *)

(** X6.  Both terminal callbacks of the [LoaderTask] return normally and set
    [isLoaderTaskFinished], so [launchAssetFile] no longer blocks:
    [onSuccess] installs the launcher it is given and leaves
    [isEmergencyLaunch] alone, moving [remoteLoadStatus] back to [IDLE]
    only from [NEW_UPDATE_LOADING] with an up-to-date launcher;
    [onFailure] installs the no-database launcher and sets
    [isEmergencyLaunch]. *)
Theorem loaderTask_callbacks_unblock (l : Launcher.t) (isUpToDate : bool)
    (e : Exception) (schedule : list Tick) (c : Controller) :
  (let r := loaderTask_onSuccess l isUpToDate c in
   r.1 = Returned tt
   /\ launcher r.2 = Some l
   /\ isLoaderTaskFinished r.2 = true
   /\ isEmergencyLaunch r.2 = isEmergencyLaunch c
   /\ remoteLoadStatus r.2 =
        match remoteLoadStatus c, isUpToDate with
        | NEW_UPDATE_LOADING, true => IDLE
        | status, _ => status
        end
   /\ launchAssetFile schedule r.2 =
        AssetFileReturned (Launcher.launchAssetFile l) r.2 schedule)
  /\ (let r := loaderTask_onFailure e c in
      r.1 = Returned tt
      /\ launcher r.2 = Some (NoDatabaseLauncher (Some e))
      /\ isLoaderTaskFinished r.2 = true
      /\ isEmergencyLaunch r.2 = true
      /\ launchAssetFile schedule r.2 = AssetFileReturned None r.2 schedule).
Proof.
  destruct c as [cfg dir dirE l0 db h started lt rls msp dsp fin em tr].
  split; cbv zeta.
  - destruct rls, isUpToDate; run_all; repeat split.
  - run_all. repeat split.
Qed.

(** *** What no action undoes *)

Lemma perform_keeps_finished (a : Action) (c : Controller) :
  isLoaderTaskFinished c = true -> isLoaderTaskFinished (perform a c) = true.
Proof.
  intros Hfin. destruct (perform_continues a c) as (t & _ & Hflag).
  rewrite Hflag, Hfin. reflexivity.
Qed.

Lemma performAll_keeps_finished (actions : list Action) :
  forall c, isLoaderTaskFinished c = true ->
            isLoaderTaskFinished (performAll actions c) = true.
Proof.
  induction actions as [|a rest IH]; intros c Hfin; cbn.
  - exact Hfin.
  - apply IH. apply perform_keeps_finished. exact Hfin.
Qed.

(** X7.  [isLoaderTaskFinished] is never reset: once a launcher has been
    announced, whatever the controller is asked to do afterwards,
    [launchAssetFile] returns at once with the path of the launcher then
    installed. *)
Theorem launchAssetFile_stays_unblocked (actions : list Action)
    (schedule : list Tick) (c : Controller) :
  isLoaderTaskFinished c = true ->
  launchAssetFile schedule (performAll actions c) =
    AssetFileReturned (launcherLaunchAssetFile (performAll actions c))
      (performAll actions c) schedule.
Proof.
  intros Hfin. unfold launchAssetFile.
  rewrite performAll_keeps_finished by exact Hfin. reflexivity.
Qed.

Lemma launchAssetFile_stays_unblocked_witness :
  launchAssetFile [Wake]
    (performAll [ActMarkFailedLaunch; ActHandlerRunNext; ActStart contextOk]
       engineLaunchedU2) =
    AssetFileReturned (Some "/data/files/.expo-internal/U2")
      (performAll [ActMarkFailedLaunch; ActHandlerRunNext; ActStart contextOk]
         engineLaunchedU2) [Wake].
Proof.
  exact (launchAssetFile_stays_unblocked
           [ActMarkFailedLaunch; ActHandlerRunNext; ActStart contextOk]
           [Wake] engineLaunchedU2 eq_refl).
Defined.

Lemma sameSettings_refl (c : Controller) : sameSettings c c.
Proof. unfold sameSettings. tauto. Qed.

Lemma sameSettings_trans (c1 c2 c3 : Controller) :
  sameSettings c1 c2 -> sameSettings c2 c3 -> sameSettings c1 c3.
Proof.
  unfold sameSettings.
  intros (H1 & H2 & H3 & H4 & H5 & H6 & H7) (G1 & G2 & G3 & G4 & G5 & G6 & G7).
  repeat split; try congruence; auto.
Qed.

Lemma perform_sameSettings (a : Action) (c : Controller) :
  sameSettings c (perform a c).
Proof.
  destruct c as [cfg dir dirE l db h started lt rls msp dsp fin em tr].
  unfold sameSettings.
  destruct a; crunch_all; repeat split; auto; discriminate.
Qed.

(** X8.  No call of [start], of a loader-task or error-recovery callback, of
    [checkForUpdate], [getExtraParams] or [setExtraParam], and no
    [setLauncher], changes the configuration, the updates directory or
    the selection policies, and none resets [isStarted] or
    [isEmergencyLaunch]: an emergency launch lasts. *)
Theorem actions_keep_settings (actions : list Action) (c : Controller) :
  sameSettings c (performAll actions c).
Proof.
  revert c. induction actions as [|a rest IH]; intros c; cbn.
  - apply sameSettings_refl.
  - eapply sameSettings_trans; [apply perform_sameSettings|apply IH].
Qed.

(** *** [checkForUpdate], once more *)

(** X9.  Whatever the download reports, [checkForUpdate] returns normally and
    changes nothing of the controller but the trace: it never writes the
    catalog and never touches the launcher, the selection policy or the
    launch flags. *)
Theorem checkForUpdate_only_logs (context : Context)
    (download : RemoteUpdateDownload) (c : Controller) :
  exists t,
    checkForUpdate context download c =
      (Returned tt, set_trace (trace c ++ t) c).
Proof.
  destruct c as [cfg dir dirE l db h started lt rls msp dsp fin em tr].
  crunch_all; rewrite <- ?app_assoc; eexists; reflexivity.
Qed.

(** X10.  Each of the eleven operations of [Action] keeps the lease
    protocol of [databaseHolder]: [start], the three [LoaderTask]
    callbacks ([onSuccess], [onFailure], manifest loaded), [setLauncher],
    [markFailedLaunchForLaunchedUpdate],
    [markSuccessfulLaunchForLaunchedUpdate], the database thread's run
    of a posted closure, [checkForUpdate], [getExtraParams] and
    [setExtraParam], the last two provided their [onSuccess] callback
    returns normally.  Started with the lease free, the operation takes
    the lease only while free, releases it only while held, holds it
    during no callback of the caller, and leaves it free.  This is a
    statement about these operations only, not about every method of
    the controller: [relaunchReactApplication] is not among them, and
    on a launcher failure (lines 601-613) it hands the exception to the
    callback without [releaseDatabase]. *)
Theorem actions_keep_lease_protocol (a : Action) (c : Controller) :
  callbacksReturn a ->
  leaseProtocol false (added c (perform a c)) = Some false.
Proof.
  intros Hcb. destruct a; cbn [callbacksReturn] in Hcb;
    try (destruct c as [cfg dir dirE l0 db h started lt rls msp dsp fin em tr];
         unfold added; crunch_all; read_trace; reflexivity).
  - cbn [perform]. rewrite getExtraParams_trace.
    destruct (metadata (database c) (updatesConfiguration c)) as [e|result];
      [reflexivity|].
    cbv zeta. rewrite Hcb. reflexivity.
  - cbn [perform]. rewrite setExtraParam_trace.
    destruct (metadata (database c) (updatesConfiguration c) key value) as [e|db'];
      [reflexivity|].
    rewrite Hcb. reflexivity.
Qed.

Lemma actions_keep_lease_protocol_witness :
  leaseProtocol false
    (added engineLaunchedU2
       (perform (ActGetExtraParams
                   (fun _ _ => inr (Some [("channel", "main")]))
                   {| getExtraParams_onFailure := fun _ => None;
                      getExtraParams_onSuccess := fun _ => None |})
          engineLaunchedU2)) = Some false.
Proof.
  apply (actions_keep_lease_protocol
           (ActGetExtraParams
              (fun _ _ => inr (Some [("channel", "main")]))
              {| getExtraParams_onFailure := fun _ => None;
                 getExtraParams_onSuccess := fun _ => None |})
           engineLaunchedU2).
  cbn [callbacksReturn getExtraParams_onSuccess]. reflexivity.
Defined.

(** With a throwing [onSuccess] the protocol is broken: the [catch]
    releases a lease that is no longer held. *)
Example getExtraParams_double_release :
  leaseProtocol false
    (added engineNew
       (perform (ActGetExtraParams (fun _ _ => inr None)
                   {| getExtraParams_onFailure := fun _ => None;
                      getExtraParams_onSuccess := fun _ => Some "boom" |})
          engineNew)) = None.
Proof. vm_compute. reflexivity. Qed.

(** X11.  When an update is launched, the response has a manifest and no
    roll-back directive, and [shouldLoadNewUpdate] rejects the manifest's
    update, the callback gets
    [NoUpdateAvailable(UPDATE_REJECTED_BY_SELECTION_POLICY)], the state
    machine [CheckCompleteUnavailable], and the catalog is not consulted:
    the only lease taken is the one for the request headers. *)
Theorem checkForUpdate_rejected_by_policy (context : Context) (c : Controller)
    (headers : option ResponseHeaderData) (updateManifest : UpdateManifest)
    (launched : UpdateEntity) (directive : option UpdateDirective) :
  launchedUpdate c = Some launched ->
  directive = None \/ directive = Some NoUpdateAvailableUpdateDirective ->
  let response :=
    {| responseHeaderData := headers;
       manifestUpdateResponsePart := Some updateManifest;
       directiveUpdateResponsePart := directive |} in
  shouldLoadNewUpdate (selectionPolicy c) (updateEntity updateManifest)
    (Some launched) (responseFilters response) = false ->
  added c (after (checkForUpdate context (DownloadSucceeded response)) c) =
    checkPrefix ++
    [EvCheckForUpdateCallback (NoUpdateAvailable UPDATE_REJECTED_BY_SELECTION_POLICY);
     EvProcessEvent CheckCompleteUnavailable].
Proof.
  intros Hlaunched Hdirective response Hpolicy. subst response.
  destruct c as [cfg dir dirE l db h started lt rls msp dsp fin em tr].
  destruct updateManifest as [ue raw].
  destruct l as [[lu file name files embedded]|]; [|discriminate Hlaunched].
  cbn [launchedUpdate launcher Launcher.launchedUpdate] in Hlaunched. subst lu.
  unfold added.
  destruct Hdirective as [-> | ->]; run_all; rewrite Hpolicy; run_all;
    read_trace; reflexivity.
Qed.

(** U3 is launched; the server offers the older U2. *)
Lemma checkForUpdate_rejected_by_policy_witness :
  let c := after (loaderTask_onSuccess (launcherOf updateU3) true) engineStarted in
  let response :=
    {| responseHeaderData := None;
       manifestUpdateResponsePart := Some (manifestOf updateU2);
       directiveUpdateResponsePart := None |} in
  callbacksOf
    (added c (after (checkForUpdate contextOk (DownloadSucceeded response)) c)) =
    [NoUpdateAvailable UPDATE_REJECTED_BY_SELECTION_POLICY].
Proof.
  cbv zeta.
  rewrite (checkForUpdate_rejected_by_policy contextOk
             (after (loaderTask_onSuccess (launcherOf updateU3) true) engineStarted)
             None (manifestOf updateU2) updateU3 None
             eq_refl (or_introl eq_refl) eq_refl).
  reflexivity.
Defined.

(** *** The loaders' veto *)

Lemma onUpdateResponseLoaded_spec (c : Controller) (updateResponse : UpdateResponse) :
  onUpdateResponseLoaded c updateResponse = true <->
  directiveUpdateResponsePart updateResponse = None
  /\ exists updateManifest,
       manifestUpdateResponsePart updateResponse = Some updateManifest
       /\ shouldLoadNewUpdate (selectionPolicy c) (updateEntity updateManifest)
            (launchedUpdate c) (responseFilters updateResponse) = true.
Proof.
  unfold onUpdateResponseLoaded.
  destruct (directiveUpdateResponsePart updateResponse) as [[|t]|].
  - split; [discriminate|intros [H _]; discriminate H].
  - split; [discriminate|intros [H _]; discriminate H].
  - destruct (manifestUpdateResponsePart updateResponse) as [m|].
    + split.
      * intros H. split; [reflexivity|]. exists m. split; [reflexivity|exact H].
      * intros (_ & m' & Hm & H). injection Hm as <-. exact H.
    + split; [discriminate|]. intros (_ & m' & Hm & _). discriminate Hm.
Qed.

(** X12.  A [NoUpdateAvailable] directive is read differently by the two
    paths.  For the loaders of [fetchUpdate] and [loadRemoteUpdate] any
    directive vetoes the download of a manifest in the same response;
    [checkForUpdate] ignores that directive and still reports the
    manifest's update as available when an update is launched, the policy
    admits the new one and the catalog holds no row for it. *)
Theorem noUpdateAvailable_directive_with_manifest (context : Context)
    (c : Controller) (headers : option ResponseHeaderData)
    (updateManifest : UpdateManifest) (entity launched : UpdateEntity) :
  launchedUpdate c = Some launched ->
  updateEntity updateManifest = Some entity ->
  loadUpdateWithId (database c) (id entity) = None ->
  let response :=
    {| responseHeaderData := headers;
       manifestUpdateResponsePart := Some updateManifest;
       directiveUpdateResponsePart := Some NoUpdateAvailableUpdateDirective |} in
  shouldLoadNewUpdate (selectionPolicy c) (Some entity) (Some launched)
    (responseFilters response) = true ->
  onUpdateResponseLoaded c response = false
  /\ callbacksOf
       (added c (after (checkForUpdate context (DownloadSucceeded response)) c)) =
       [UpdateAvailable updateManifest]
  /\ onUpdateResponseLoaded c
       {| responseHeaderData := headers;
          manifestUpdateResponsePart := Some updateManifest;
          directiveUpdateResponsePart := None |} = true.
Proof.
  intros Hlaunched Hentity Hstored response Hpolicy. subst response.
  split; [reflexivity|]. split.
  - rewrite (checkForUpdate_admitted_manifest context c headers updateManifest
               entity launched (Some NoUpdateAvailableUpdateDirective)
               Hlaunched (or_intror eq_refl) Hentity Hpolicy).
    rewrite Hstored. reflexivity.
  - apply onUpdateResponseLoaded_spec. split; [reflexivity|].
    exists updateManifest. split; [reflexivity|].
    rewrite Hentity, Hlaunched. exact Hpolicy.
Qed.

(** U2 is launched; the server sends the new U4 together with a
    [NoUpdateAvailable] directive. *)
Lemma noUpdateAvailable_directive_with_manifest_witness :
  let response :=
    {| responseHeaderData := None;
       manifestUpdateResponsePart := Some (manifestOf updateU4);
       directiveUpdateResponsePart := Some NoUpdateAvailableUpdateDirective |} in
  onUpdateResponseLoaded engineLaunchedU2 response = false
  /\ callbacksOf
       (added engineLaunchedU2
          (after (checkForUpdate contextOk (DownloadSucceeded response))
             engineLaunchedU2)) =
       [UpdateAvailable (manifestOf updateU4)].
Proof.
  cbv zeta.
  destruct (noUpdateAvailable_directive_with_manifest contextOk engineLaunchedU2
              None (manifestOf updateU4) updateU4 updateU2
              eq_refl eq_refl eq_refl eq_refl) as (Hveto & Hcheck & _).
  split; [exact Hveto|exact Hcheck].
Defined.

(** *** The posted closures *)

(** X13.  A posted closure charges the update that is launched when the
    database thread runs it, not the one launched when the launch was
    marked: if the launcher is replaced in between, the failed launch is
    counted for the new launcher's update. *)
Theorem posted_mark_charges_update_launched_at_run_time (c : Controller)
    (l' : Launcher.t) (launched' : UpdateEntity) :
  isEmergencyLaunch c = false ->
  databaseHandler c = Some [] ->
  Launcher.launchedUpdate l' = Some launched' ->
  database
    (after handlerRunNext
       (after (setLauncher (Some l'))
          (after markFailedLaunchForLaunchedUpdate c))) =
    incrementFailedLaunchCount launched' (database c).
Proof.
  destruct c as [cfg dir dirE l db h started lt rls msp dsp fin em tr].
  destruct l' as [lu file name files embedded].
  cbn [isEmergencyLaunch databaseHandler Launcher.launchedUpdate].
  intros -> -> ->. run_all. reflexivity.
Qed.

(** U2 is launched when the failure is marked, U3 when the closure runs:
    the failure goes to U3, which then has two failed launches. *)
Lemma posted_mark_charges_update_launched_at_run_time_witness :
  (failedLaunchCount <$>
     loadUpdateWithId
       (database
          (after handlerRunNext
             (after (setLauncher (Some (launcherOf updateU3)))
                (after markFailedLaunchForLaunchedUpdate engineLaunchedU2))))
       "U3") = Some 2.
Proof.
  rewrite (posted_mark_charges_update_launched_at_run_time engineLaunchedU2
             (launcherOf updateU3) updateU3 eq_refl eq_refl eq_refl).
  vm_compute. reflexivity.
Defined.

(** *** [fetchUpdate] *)

(** X14.  Unlike [checkForUpdate], [fetchUpdate] ends every path on which it
    delivers a result with exactly one terminal event, the one that goes
    with the result, after the initial [Download]; it takes the lease once
    and releases it once, before that event.  The selection policy is
    reset to the default exactly when an update is available, and the
    launcher is never touched.  The one path without result and terminal
    event is the failing cast: an available update with a loader result
    that has no update entity. *)
Theorem fetchUpdate_terminal_event (run : FetchRun) (c : Controller) :
  let r := fetchUpdate run c in
  let t := added c r.2 in
  leaseProtocol false t = Some false
  /\ count isGetDatabase t = 1
  /\ count isReleaseDatabase t = 1
  /\ database r.2 = fetchCatalog run
  /\ launcher r.2 = launcher c
  /\ match r.1 with
     | Returned result =>
         eventsOf t = [Download; terminalDownloadEvent result]
         /\ t = [EvProcessEvent Download; EvGetDatabase; EvReleaseDatabase;
                 EvProcessEvent (terminalDownloadEvent result)]
         /\ mSelectionPolicy r.2 =
              match result with
              | FetchSuccess _ => None
              | _ => mSelectionPolicy c
              end
     | Threw _ =>
         eventsOf t = [Download]
         /\ mSelectionPolicy r.2 = None
         /\ didRollBackToEmbedded run = false
         /\ availableUpdate run <> None
         /\ exists loaderResult,
              fetchLoad run = RemoteLoadSucceeded loaderResult
              /\ loadedUpdateEntity loaderResult = None
     end.
Proof.
  destruct c as [cfg dir dirE l db h started lt rls msp dsp fin em tr].
  destruct run as [[e|[[entity|] loadedDirective]] catalog [available|] [|]];
    cbv zeta; unfold added; run_all; read_trace;
    repeat split; try reflexivity; try discriminate;
    eexists; split; reflexivity.
Qed.

(** Scenario S1 of the spec: the loader stored U4 and reports it. *)
Example fetchUpdate_S1 :
  let run :=
    {| fetchLoad := RemoteLoadSucceeded
                      {| loadedUpdateEntity := Some updateU4;
                         loadedUpdateDirective := None |};
       fetchCatalog :=
         {| updates := <[ "U4" := updateU4 ]> (updates catalogU2U3);
            jsonData := ∅ |};
       availableUpdate := Some updateU4;
       didRollBackToEmbedded := false |} in
  let r := fetchUpdate run engineLaunchedU2 in
  r.1 = Returned (FetchSuccess updateU4)
  /\ machineState Idle (added engineLaunchedU2 r.2) = Idle
  /\ loadUpdateWithId (database r.2) "U4" = Some updateU4.
Proof. cbv zeta. repeat split; vm_compute; reflexivity. Qed.

(** *** [loadRemoteUpdate] *)

(** The status [loadRemoteUpdate] ends with after a run of the loader. *)
Lemma loadRemoteUpdate_runs (load : RemoteLoad) (catalog : UpdatesDatabase)
    (c : Controller) :
  match loaderTask c with Some {| isRunning := true |} => False | _ => True end ->
  let final :=
    match load with
    | RemoteLoadFailed _ => IDLE
    | RemoteLoadSucceeded loaderResult =>
        match loadedUpdateEntity loaderResult,
              loadedUpdateDirective loaderResult with
        | Some _, _ => NEW_UPDATE_LOADED
        | None, Some (RollBackToEmbeddedUpdateDirective _) => NEW_UPDATE_LOADED
        | None, _ => IDLE
        end
    end in
  loadRemoteUpdate load catalog c =
    (Returned [final],
     set_trace (trace c ++ [EvGetDatabase; EvReleaseDatabase])
       (set_database catalog (set_remoteLoadStatus final c))).
Proof.
  destruct c as [cfg dir dirE l db h started lt rls msp dsp fin em tr].
  cbn [loaderTask]. intros Hidle. cbv zeta.
  destruct lt as [[[|]]|]; try contradiction;
    destruct load as [e|[[entity|] [[|t]|]]];
    run_all; rewrite <- ?app_assoc; reflexivity.
Qed.

Ltac loaded_case :=
  split;
  [ intros _; eexists; split; [reflexivity|];
    cbn [loadedUpdateEntity loadedUpdateDirective];
    first [left; discriminate|right; eexists; reflexivity]
  | intros _; reflexivity ].

Ltac idle_case :=
  split;
  [ discriminate
  | intros (lr & Hlr & Hor);
    first
      [ discriminate Hlr
      | injection Hlr as <-;
        cbn [loadedUpdateEntity loadedUpdateDirective] in Hor;
        destruct Hor as [Hor|[t' Hor]];
        [exfalso; apply Hor; reflexivity|discriminate Hor] ] ].

(** X15.  [loadRemoteUpdate] does nothing while the loader task is running.
    Otherwise it takes and releases the lease once, tells the error
    recovery exactly one status, the final one, which is never
    [NEW_UPDATE_LOADING], and that status is [NEW_UPDATE_LOADED] exactly
    when the loader succeeded with an update entity or a roll-back
    directive, and [IDLE] in every other case. *)
Theorem loadRemoteUpdate_status (load : RemoteLoad) (catalog : UpdatesDatabase)
    (c : Controller) :
  let r := loadRemoteUpdate load catalog c in
  match loaderTask c with
  | Some {| isRunning := true |} => r = (Returned [], c)
  | _ =>
      exists final,
        r.1 = Returned [final]
        /\ remoteLoadStatus r.2 = final
        /\ (final = NEW_UPDATE_LOADED \/ final = IDLE)
        /\ (final = NEW_UPDATE_LOADED <->
            exists loaderResult,
              load = RemoteLoadSucceeded loaderResult
              /\ (loadedUpdateEntity loaderResult <> None
                  \/ exists t, loadedUpdateDirective loaderResult =
                                 Some (RollBackToEmbeddedUpdateDirective t)))
        /\ added c r.2 = [EvGetDatabase; EvReleaseDatabase]
        /\ database r.2 = catalog
  end.
Proof.
  cbv zeta.
  destruct (loaderTask c) as [[[|]]|] eqn:Htask.
  - unfold loadRemoteUpdate, bind, get, ret. rewrite Htask. reflexivity.
  - rewrite loadRemoteUpdate_runs by (rewrite Htask; exact I).
    cbn [fst snd]. eexists. split; [reflexivity|].
    split; [destruct c; reflexivity|].
    split; [|split; [|split; [|destruct c; reflexivity]]].
    + destruct load as [e|[[entity|] [[|t]|]]]; cbn; tauto.
    + destruct load as [e|[[entity|] [[|t]|]]];
        cbn [loadedUpdateEntity loadedUpdateDirective];
        first [loaded_case|idle_case].
    + unfold added. destruct c; cbn [trace set_trace].
      rewrite drop_app_length. reflexivity.
  - rewrite loadRemoteUpdate_runs by (rewrite Htask; exact I).
    cbn [fst snd]. eexists. split; [reflexivity|].
    split; [destruct c; reflexivity|].
    split; [|split; [|split; [|destruct c; reflexivity]]].
    + destruct load as [e|[[entity|] [[|t]|]]]; cbn; tauto.
    + destruct load as [e|[[entity|] [[|t]|]]];
        cbn [loadedUpdateEntity loadedUpdateDirective];
        first [loaded_case|idle_case].
    + unfold added. destruct c; cbn [trace set_trace].
      rewrite drop_app_length. reflexivity.
Qed.

(** *** The singleton *)

(** X16.  [initialize] constructs and starts the controller only when there is
    no singleton yet.  When the singleton exists it does nothing, started
    or not: after [initializeWithoutStarting] an [initialize] leaves the
    controller unstarted, without launcher, and [launchAssetFile] blocked;
    after an [initialize] that constructed it the controller is started,
    also when its [start] threw, and a second [initialize] changes
    nothing. *)
Theorem initialize_only_once (context context' : Context)
    (configuration configuration' : UpdatesConfiguration)
    (db db' : UpdatesDatabase) (policy policy' : SelectionPolicy) :
  (forall c,
     initialize context' configuration' db' policy' (Some c) =
       (Returned tt, Some c))
  /\ (exists c,
        initializeWithoutStarting context configuration db policy None = Some c
        /\ initialize context' configuration' db' policy' (Some c) =
             (Returned tt, Some c)
        /\ isStarted c = false
        /\ launcher c = None
        /\ forall n, exists c',
             launchAssetFile (replicate n Wake) c = StillWaiting c')
  /\ (exists c,
        (initialize context configuration db policy None).2 = Some c
        /\ isStarted c = true
        /\ initialize context' configuration' db' policy' (Some c) =
             (Returned tt, Some c)).
Proof.
  split; [intros c; reflexivity|]. split.
  - eexists. split; [reflexivity|]. split; [reflexivity|].
    split; [reflexivity|]. split; [reflexivity|].
    intros n. unfold launchAssetFile. cbn [isLoaderTaskFinished newController].
    destruct (waiting_spurious n
                (log EvWait (newController context configuration db policy)))
      as (c' & Hwait & _); [reflexivity|].
    exists c'. exact Hwait.
  - eexists. split; [reflexivity|]. split; [|reflexivity].
    apply start_sets_isStarted.
Qed.
